(** * pyqt_fit.nonparam_regression: the [NonParamRegression] model object

    A shallow embedding of [src/pyqt_fit/nonparam_regression.py].

    - Python values are a small universe: [None], booleans, integers, floats,
      opaque objects (functions, classes, kernel and method instances) and
      numpy arrays given by their shape and their elements.
    - An instance is its [__dict__], an insertion-ordered dictionary from
      attribute names to values; the class contributes the properties.
    - Statements run in a state-and-exception monad: the state is the
      allocator of object identities, an exception ends the computation.
    - The collaborators that are not part of the module ([kernels],
      [npr_methods]) are section variables. *)

From Stdlib Require Import String Ascii List ZArith Bool Arith Lia Floats.
Import ListNotations.
Local Open Scope string_scope.
Local Open Scope list_scope.

(** ** Values *)

(** An object that is neither a number nor an array.  Python is duck-typed:
    what the module asks of such an object is whether it can be called
    ([callable(bw)]) and whether it has a [copy] method ([obj.copy()]). *)
Record pyobject := PyObject {
  obj_id : nat;
  obj_callable : bool;
  obj_has_copy : bool
}.

Inductive scalar :=
| SNone
| SBool (b : bool)
| SInt (z : Z)
| SFloat (f : float)
| SObject (o : pyobject).

(** A numpy array: the identity of its buffer, its shape and its elements in
    row-major order.  A view (reshape, [newaxis]) keeps the buffer; [copy],
    [ones], [empty] and arithmetic allocate a new one. *)
Record ndarray := NdArray {
  arr_id : nat;
  shape : list nat;
  data : list scalar
}.

Inductive value :=
| Scalar (s : scalar)
| Array (a : ndarray).

Abbreviation VNone := (Scalar SNone).
Abbreviation VBool b := (Scalar (SBool b)).
Abbreviation VInt z := (Scalar (SInt z)).
Abbreviation VFloat f := (Scalar (SFloat f)).
Abbreviation VObject o := (Scalar (SObject o)).

(** [v is None] *)
Definition is_none (v : value) : bool :=
  match v with
  | VNone => true
  | _ => false
  end.

(** [callable(v)] *)
Definition callable (v : value) : bool :=
  match v with
  | VObject o => obj_callable o
  | _ => false
  end.

Definition ndim (a : ndarray) : nat := length (shape a).

Definition prod_shape (s : list nat) : nat := fold_right Nat.mul 1 s.

Definition size (a : ndarray) : nat := prod_shape (shape a).

(** The rank numpy gives to a value: 0 for anything that is not an array. *)
Definition rank (v : value) : nat :=
  match v with
  | Array a => ndim a
  | Scalar _ => 0
  end.

(** ** Exceptions and the monad *)

Inductive exn :=
| NameError (name : string)
| AssertionError (msg : string)
| AttributeError (msg : string)
| TypeError (msg : string)
| ValueError (msg : string)
| IndexError (msg : string)
| KeyError (key : string).

Inductive outcome (A : Type) :=
| Returns (a : A) (next : nat)
| Raises (e : exn).
Arguments Returns {A} a next.
Arguments Raises {A} e.

(** A computation takes the next free object identity. *)
Definition Py (A : Type) : Type := nat -> outcome A.

Definition ret {A} (a : A) : Py A := fun n => Returns a n.

Definition raise {A} (e : exn) : Py A := fun _ => Raises e.

Definition bind {A B} (c : Py A) (k : A -> Py B) : Py B :=
  fun n =>
    match c n with
    | Returns a n' => k a n'
    | Raises e => Raises e
    end.

Declare Scope py_scope.
Delimit Scope py_scope with py.
Notation "x <- c ;; k" := (bind c (fun x => k))
  (at level 61, c at next level, right associativity) : py_scope.
Notation "c ;; k" := (bind c (fun _ => k))
  (at level 61, right associativity) : py_scope.
Local Open Scope py_scope.

(** A new object identity. *)
Definition fresh : Py nat := fun n => Returns n (S n).

(** [assert cond, msg] *)
Definition assert (cond : bool) (msg : string) : Py unit :=
  if cond then ret tt else raise (AssertionError msg).

(** ** Dictionaries *)

(** A Python [dict]: keys are unique and keep their insertion order. *)
Definition dict := list (string * value).

Fixpoint dict_get (k : string) (d : dict) : option value :=
  match d with
  | [] => None
  | (k', v) :: d' => if String.eqb k k' then Some v else dict_get k d'
  end.

(** [d[k] = v]: an existing key keeps its place, a new key goes last. *)
Fixpoint dict_set (k : string) (v : value) (d : dict) : dict :=
  match d with
  | [] => [(k, v)]
  | (k', v') :: d' =>
      if String.eqb k k' then (k, v) :: d' else (k', v') :: dict_set k v d'
  end.

Definition dict_keys (d : dict) : list string := map fst d.

(** ** numpy *)

(** [np.asanyarray(v)]: an array is passed through, anything else becomes a
    0-dimensional array holding it. *)
Definition asanyarray (v : value) : Py ndarray :=
  match v with
  | Array a => ret a
  | Scalar s => i <- fresh ;; ret (NdArray i [] [s])
  end.

(** [a.reshape(new_shape)]: a view on the same buffer. *)
Definition reshape (a : ndarray) (new_shape : list nat) : Py ndarray :=
  if Nat.eqb (prod_shape new_shape) (size a)
  then ret (NdArray (arr_id a) new_shape (data a))
  else raise (ValueError "cannot reshape array").

(** [a.shape = new_shape]: the array is reshaped in place. *)
Definition set_shape (a : ndarray) (new_shape : list nat) : Py ndarray :=
  if Nat.eqb (prod_shape new_shape) (size a)
  then ret (NdArray (arr_id a) new_shape (data a))
  else raise (ValueError "cannot reshape array").

(** [np.atleast_1d(v)] *)
Definition atleast_1d (v : value) : Py ndarray :=
  ary <- asanyarray v ;;
  match ndim ary with
  | 0 => reshape ary [1]
  | _ => ret ary
  end.

(** [np.atleast_2d(v)] *)
Definition atleast_2d (v : value) : Py ndarray :=
  ary <- asanyarray v ;;
  match shape ary with
  | [] => reshape ary [1; 1]
  | [n] => ret (NdArray (arr_id ary) [1; n] (data ary))
  | _ => ret ary
  end.

(** An entry of a shape given to numpy: an integer that is not negative;
    numpy takes neither a boolean nor a float for a dimension. *)
Definition as_index (v : value) : Py nat :=
  match v with
  | VInt z =>
      if (0 <=? z)%Z then ret (Z.to_nat z)
      else raise (ValueError "negative dimensions are not allowed")
  | _ => raise (TypeError "object cannot be interpreted as an integer")
  end.

(** [np.ones((n,), dtype=float)] *)
Definition np_ones (n : value) : Py ndarray :=
  len <- as_index n ;;
  i <- fresh ;;
  ret (NdArray i [len] (repeat (SFloat 1%float) len)).

(** [x * e] for a float [x] and an array element [e] of dtype float. *)
Definition float_mul_scalar (x : float) (e : scalar) : scalar :=
  match e with
  | SFloat f => SFloat (x * f)%float
  | _ => e
  end.

(** [x * a]: the element-wise product, a new array. *)
Definition float_mul_array (x : float) (a : ndarray) : Py ndarray :=
  i <- fresh ;;
  ret (NdArray i (shape a) (map (float_mul_scalar x) (data a))).

(** [np.inf] *)
Definition np_inf : float := infinity.

(** [s[-1]] on a shape tuple *)
Definition shape_last (s : list nat) : Py nat :=
  match rev s with
  | [] => raise (IndexError "tuple index out of range")
  | n :: _ => ret n
  end.

(** [s[0]] on a shape tuple *)
Definition shape_first (s : list nat) : Py nat :=
  match s with
  | [] => raise (IndexError "tuple index out of range")
  | n :: _ => ret n
  end.

(** [s[-1:]] on a shape tuple: the last entry, or nothing. *)
Definition shape_tail1 (s : list nat) : list nat :=
  match rev s with
  | [] => []
  | n :: _ => [n]
  end.

(** [v.shape] *)
Definition shape_of (v : value) : Py (list nat) :=
  match v with
  | Array a => ret (shape a)
  | Scalar _ => raise (AttributeError "shape")
  end.

(** ** Instances and attribute access *)

(** An instance of [NonParamRegression] is its [__dict__]. *)
Definition instance := dict.

(** [self._name] for a name the class does not define: the instance
    dictionary decides. *)
Definition attr (self : instance) (name : string) : Py value :=
  match dict_get name self with
  | Some v => ret v
  | None => raise (AttributeError name)
  end.

(** [self._name = v] for a name the class does not define. *)
Definition store (name : string) (v : value) (self : instance) : Py instance :=
  ret (dict_set name v self).

Module NonParamRegression.

(** ** The properties (lines 64-215) *)

Definition kernel_getter (self : instance) : Py value := attr self "_kernel".

Definition kernel_setter (k : value) (self : instance) : Py instance :=
  self <- store "_kernel_class" VNone self ;;
  store "_kernel" k self.

Definition kernel_class_getter (self : instance) : Py value :=
  attr self "_kernel_class".

Definition kernel_class_setter (k : value) (self : instance) : Py instance :=
  self <- store "_kernel" VNone self ;;
  store "_kernel_class" k self.

Definition bandwidth_getter (self : instance) : Py value :=
  attr self "_bandwidth".

Definition bandwidth_setter (bw : value) (self : instance) : Py instance :=
  self <- store "_bw_fct" VNone self ;;
  self <- store "_cov_fct" VNone self ;;
  if callable bw then
    store "_bw_fct" bw self
  else
    self <- store "_bandwidth" bw self ;;
    store "_covariance" VNone self.

Definition covariance_getter (self : instance) : Py value :=
  attr self "_covariance".

Definition covariance_setter (cov : value) (self : instance) : Py instance :=
  self <- store "_bw_fct" VNone self ;;
  self <- store "_cov_fct" VNone self ;;
  if callable cov then
    store "_cov_fct" cov self
  else
    self <- store "_covariance" cov self ;;
    store "_bandwidth" VNone self.

Definition lower_getter (self : instance) : Py value := attr self "_lower".

Definition lower_setter (l : value) (self : instance) : Py instance :=
  l <- atleast_1d l ;;
  assert (Nat.eqb (length (shape l)) 1)
         "The lower bound must be at most a 1D array" ;;
  store "_lower" (Array l) self.

Definition lower_deleter (self : instance) : Py instance :=
  store "_lower" VNone self.

Definition upper_getter (self : instance) : Py value := attr self "_upper".

Definition upper_setter (l : value) (self : instance) : Py instance :=
  l <- atleast_1d l ;;
  assert (Nat.eqb (length (shape l)) 1)
         "The upper bound must be at most a 1D array" ;;
  store "_upper" (Array l) self.

Definition upper_deleter (self : instance) : Py instance :=
  store "_upper" VNone self.

Definition xdata_getter (self : instance) : Py value := attr self "_xdata".

Definition xdata_setter (xd : value) (self : instance) : Py instance :=
  xd <- atleast_2d xd ;;
  assert (Nat.eqb (length (shape xd)) 2)
         "The xdata must be at most a 2D array" ;;
  store "_xdata" (Array xd) self.

Definition ydata_getter (self : instance) : Py value := attr self "_ydata".

Definition ydata_setter (yd : value) (self : instance) : Py instance :=
  yd <- atleast_1d yd ;;
  assert (Nat.eqb (length (shape yd)) 1)
         "The ydata must be at most a 1D array" ;;
  store "_ydata" (Array yd) self.

Definition method_getter (self : instance) : Py value := attr self "_method".

Definition method_setter (m : value) (self : instance) : Py instance :=
  store "_method" m self.

Definition N_getter (self : instance) : Py value := attr self "_n".

Definition dim_getter (self : instance) : Py value := attr self "_d".

(** What the class and its base [object] hold under a name. *)
Inductive class_attribute :=
| Property (fget : instance -> Py value)
           (fset : option (value -> instance -> Py instance))
           (fdel : option (instance -> Py instance))
| Slot (refusal : exn)  (* [__class__], [__dict__], [__weakref__] *)
| Function.             (* a method: it does not intercept assignment *)

Definition class_dict : list (string * class_attribute) :=
  [ ("__init__", Function);
    ("copy", Function);
    ("kernel", Property kernel_getter (Some kernel_setter) None);
    ("kernel_class",
       Property kernel_class_getter (Some kernel_class_setter) None);
    ("bandwidth", Property bandwidth_getter (Some bandwidth_setter) None);
    ("covariance", Property covariance_getter (Some covariance_setter) None);
    ("lower", Property lower_getter (Some lower_setter) (Some lower_deleter));
    ("upper", Property upper_getter (Some upper_setter) (Some upper_deleter));
    ("xdata", Property xdata_getter (Some xdata_setter) None);
    ("ydata", Property ydata_getter (Some ydata_setter) None);
    ("method", Property method_getter (Some method_setter) None);
    ("N", Property N_getter None None);
    ("dim", Property dim_getter None None);
    ("fit", Function);
    ("evaluate", Function);
    ("__call__", Function);
    ("__class__", Slot (TypeError "__class__ must be set to a class"));
    ("__dict__", Slot (TypeError "__dict__ must be set to a dictionary"));
    ("__weakref__", Slot (AttributeError "__weakref__ is not writable")) ].

Fixpoint class_lookup_in (name : string)
    (l : list (string * class_attribute)) : option class_attribute :=
  match l with
  | [] => None
  | (n, a) :: l' => if String.eqb name n then Some a else class_lookup_in name l'
  end.

Definition class_lookup (name : string) : option class_attribute :=
  class_lookup_in name class_dict.

(** [setattr(self, name, v)]: a property of the class takes the assignment,
    through its setter when it has one; any other name goes to the instance
    dictionary.  The values of the model hold no [dict], and a class among
    them is an object like any other, so the three descriptors of [object]
    refuse them all; what Python does when [__class__] is given a class is
    outside the model. *)
Definition setattr (self : instance) (name : string) (v : value)
  : Py instance :=
  match class_lookup name with
  | Some (Property _ (Some fset) _) => fset v self
  | Some (Property _ None _) => raise (AttributeError "can't set attribute")
  | Some (Slot refusal) => raise refusal
  | Some Function | None => store name v self
  end.

(** [getattr(self, name)] for the names the module reads: a property answers
    through its getter, any other name through the instance dictionary. *)
Definition getattr (self : instance) (name : string) : Py value :=
  match class_lookup name with
  | Some (Property fget _ _) => fget self
  | _ => attr self name
  end.

(** [del self.name] *)
Definition delattr (self : instance) (name : string) : Py instance :=
  match class_lookup name with
  | Some (Property _ _ (Some fdel)) => fdel self
  | Some (Property _ _ None) => raise (AttributeError "can't delete attribute")
  | Some (Slot refusal) => raise refusal
  | Some Function | None =>
      match dict_get name self with
      | Some _ =>
          ret (filter (fun kv => negb (String.eqb name (fst kv))) self)
      | None => raise (AttributeError name)
      end
  end.

(** ** [copy] (lines 52-62) *)

(** [len(m) > 1 and m[0] == '_' and m[1] != '_'] *)
Definition is_private_member (m : string) : bool :=
  match m with
  | String c0 (String c1 _) =>
      Ascii.eqb c0 "_"%char && negb (Ascii.eqb c1 "_"%char)
  | _ => false
  end.

(** [try: body except AttributeError: handler].  Any other exception of the
    body goes on to the caller.  The outcome of a body that raises carries
    no allocator, so the handler starts from the one the body started
    from. *)
Definition try_except_AttributeError {A : Type} (body handler : Py A)
  : Py A :=
  fun n =>
    match body n with
    | Raises (AttributeError _) => handler n
    | r => r
    end.

(** [obj.copy()].  An array gives a new array with the same shape and
    elements.  [None], a boolean and a number have no attribute [copy].  An
    object that has one answers as its class decides, which the class
    [NonParamRegression] does not know: [object_copy] stands for that
    answer, which may be any value, or any exception. *)
Definition call_copy (object_copy : pyobject -> Py value) (obj : value)
  : Py value :=
  match obj with
  | Array a =>
      i <- fresh ;; ret (Array (NdArray i (shape a) (data a)))
  | VObject o =>
      if obj_has_copy o then object_copy o
      else raise (AttributeError "copy")
  | _ => raise (AttributeError "copy")
  end.

(** The loop [for m in self.__dict__], on the members still to visit. *)
Fixpoint copy_loop (object_copy : pyobject -> Py value)
    (members : list string) (self res : instance) : Py instance :=
  match members with
  | [] => ret res
  | m :: rest =>
      if is_private_member m then
        obj <- getattr self m ;;
        res <- try_except_AttributeError
                 (c <- call_copy object_copy obj ;; setattr res m c)
                 (setattr res m obj) ;;
        copy_loop object_copy rest self res
      else copy_loop object_copy rest self res
  end.

Definition copy (object_copy : pyobject -> Py value) (self : instance)
  : Py instance :=
  let res : instance := [] in
  copy_loop object_copy (dict_keys self) self res.

(** ** Names of the module *)

(** The names bound at the top level of the module, by its imports and by
    the class statement. *)
Definition module_names : list string :=
  [ "division"; "absolute_import"; "print_function"; "stats"; "sqrtm";
    "solve"; "scipy"; "np"; "irange"; "npr_methods"; "kernels";
    "numpy_method_idx"; "NonParamRegression" ].

Fixpoint index_of (name : string) (l : list string) (i : nat) : option nat :=
  match l with
  | [] => None
  | n :: l' => if String.eqb name n then Some i else index_of name l' (S i)
  end.

(** Reading a name that no function assigns: the module namespace decides
    (the built-in namespace holds no name of one letter).  A bound name
    gives the object made when the module was loaded. *)
Definition load_global (name : string) : Py value :=
  match index_of name module_names 0 with
  | Some i => ret (VObject (PyObject i false false))
  | None => raise (NameError name)
  end.

(** [z == f] between an integer and a float: Python compares the two
    numbers exactly; no integer equals an infinity or a NaN. *)
Definition float_eq_Z (f : float) (z : Z) : bool :=
  match Prim2SF f with
  | S754_zero _ => Z.eqb z 0
  | S754_finite false m e =>
      if (0 <=? e)%Z then Z.eqb (Z.pos m * 2 ^ e) z
      else Z.eqb (Z.pos m mod 2 ^ (- e)) 0 && Z.eqb (Z.pos m / 2 ^ (- e)) z
  | _ => false
  end.

(** [a == b] between an entry of a shape and a value: numbers compare by
    value ([True] is 1, [False] is 0), nothing else equals an integer. *)
Definition eq_index (n : nat) (v : value) : bool :=
  match v with
  | VInt z => Z.eqb (Z.of_nat n) z
  | VBool b => Nat.eqb n (if b then 1 else 0)
  | VFloat f => float_eq_Z f (Z.of_nat n)
  | _ => false
  end.

(** [np.empty((m,), dtype=type(y.dtype.type() + 0.))]: a new buffer of [m]
    floats (their initial content is not specified; zeros stand for it).
    A [y] without [dtype] is an [AttributeError]. *)
Definition np_empty_float (m : nat) (y : value) : Py ndarray :=
  match y with
  | Array _ => i <- fresh ;; ret (NdArray i [m] (repeat (SFloat 0%float) m))
  | Scalar _ => raise (AttributeError "dtype")
  end.

Section Collaborators.

(** [kernels.normal_kernel] and [npr_methods.default_method] *)
Variable normal_kernel : value.
Variable default_method : value.

(** [m.fit(self)] and [m.evaluate(self, points, out)] for the method
    object [m]: the first may update the model, the second fills [out]
    in place.  What the second returns stands for [out] after the call;
    arrays being values here, [points] and [out] are taken to be two
    objects. *)
Variable method_fit : value -> instance -> Py instance.
Variable method_evaluate :
  value -> instance -> ndarray -> ndarray -> Py ndarray.

(** *** [__init__] (lines 27-50) *)

(** [for kw in kwords: setattr(self, kw, kwords[kw])] *)
Fixpoint init_loop (kws : list string) (kwords : dict) (self : instance)
  : Py instance :=
  match kws with
  | [] => ret self
  | kw :: rest =>
      match dict_get kw kwords with
      | Some v =>
          self <- setattr self kw v ;;
          init_loop rest kwords self
      | None => raise (KeyError kw)
      end
  end.

Definition __init__ (self : instance) (xdata ydata : value) (kwords : dict)
  : Py instance :=
  xd <- atleast_2d xdata ;;
  self <- store "_xdata" (Array xd) self ;;
  yd <- atleast_1d ydata ;;
  self <- store "_ydata" (Array yd) self ;;
  self <- store "_kernel_class" VNone self ;;
  self <- store "_covariance" VNone self ;;
  self <- store "_cov_fct" VNone self ;;
  self <- store "_bandwidth" VNone self ;;
  self <- store "_bw_fct" VNone self ;;
  self <- store "_method" VNone self ;;
  self <- store "_fitted" (VBool false) self ;;
  self <- store "_kernel" VNone self ;;
  self <- store "_lower" VNone self ;;
  self <- store "_upper" VNone self ;;
  self <- store "_n" VNone self ;;
  self <- store "_d" VNone self ;;
  self <- init_loop (dict_keys kwords) kwords self ;;
  k <- attr self "_kernel" ;;
  self <- (if is_none k then setattr self "kernel_class" normal_kernel
           else ret self) ;;
  m <- attr self "_method" ;;
  if is_none m then store "_method" default_method self else ret self.

(** [NonParamRegression(xdata, ydata, **kwords)]: a keyword that names a
    parameter of [__init__] cannot be bound twice; otherwise [__init__]
    runs on a new, empty instance. *)
Definition construct (xdata ydata : value) (kwords : dict) : Py instance :=
  if existsb (fun kw => existsb (String.eqb kw) ["self"; "xdata"; "ydata"])
             (dict_keys kwords)
  then raise (TypeError "got multiple values for argument")
  else __init__ [] xdata ydata kwords.

(** *** [fit] (lines 217-230) *)

(** Lines 222-230, with the values the names [D] and [N] stand for. *)
Definition fit_from (D N : value) (self : instance) : Py instance :=
  yd <- attr self "_ydata" ;;
  ys <- shape_of yd ;;
  y0 <- shape_first ys ;;
  assert (eq_index y0 N) "There must be as many points for X and Y" ;;
  lo <- attr self "_lower" ;;
  self <- (if is_none lo then
             o <- np_ones N ;;
             l <- float_mul_array (- np_inf)%float o ;;
             store "_lower" (Array l) self
           else ret self) ;;
  up <- attr self "_upper" ;;
  self <- (if is_none up then
             o <- np_ones N ;;
             u <- float_mul_array np_inf o ;;
             store "_upper" (Array u) self
           else ret self) ;;
  self <- store "_n" N self ;;
  self <- store "_d" D self ;;
  m <- attr self "_method" ;;
  self <- method_fit m self ;;
  store "_fitted" (VBool true) self.

(** Line 221 is the expression statement [D, N == self._xdata.shape]: it
    reads [D], reads [N], compares and drops the pair; it binds nothing. *)
Definition fit (self : instance) : Py instance :=
  D <- load_global "D" ;;
  N <- load_global "N" ;;
  xd <- attr self "_xdata" ;;
  _ <- shape_of xd ;;
  fit_from D N self.

(** *** [evaluate] (lines 232-246) *)

Definition evaluate (self : instance) (points : value)
    (out : option ndarray) : Py ndarray :=
  points <- asanyarray points ;;
  let real_shape := shape points in
  assert (Nat.ltb (length real_shape) 3)
         "The input points can be at most a 2D array" ;;
  points <- (match real_shape with
             | [] => reshape points [1; 1]
             | [n] => reshape points [1; n]
             | _ => ret points
             end) ;;
  out <- (match out with
          | None =>
              m <- shape_last (shape points) ;;
              y <- load_global "y" ;;
              np_empty_float m y
          | Some out =>
              m <- shape_last (shape points) ;;
              set_shape out [m]
          end) ;;
  meth <- attr self "_method" ;;
  out <- method_evaluate meth self points out ;;
  out <- set_shape out (shape_tail1 real_shape) ;;
  ret out.

(** [__call__] (lines 248-249) *)
Definition __call__ (self : instance) (points : value)
    (out : option ndarray) : Py ndarray :=
  evaluate self points out.

End Collaborators.

End NonParamRegression.

Import NonParamRegression.

(** ** Sequences of assignments to the kernel properties *)

Inductive kernel_assignment :=
| AssignKernel (k : value)          (* [model.kernel = k] *)
| AssignKernelClass (k : value).    (* [model.kernel_class = k] *)

Definition assign (a : kernel_assignment) (self : instance) : Py instance :=
  match a with
  | AssignKernel k => setattr self "kernel" k
  | AssignKernelClass k => setattr self "kernel_class" k
  end.

Fixpoint assign_all (l : list kernel_assignment) (self : instance)
  : Py instance :=
  match l with
  | [] => ret self
  | a :: l' => self <- assign a self ;; assign_all l' self
  end.

(** At most one of [_kernel] and [_kernel_class] is set. *)
Definition at_most_one_kernel (self : instance) : Prop :=
  dict_get "_kernel" self = Some VNone \/
  dict_get "_kernel_class" self = Some VNone.

(** ** Sample objects *)

Module Sample.

(** A kernel class, a method object, a bandwidth function.  The identities
    below 13 are those of the objects of the module. *)
Definition normal_kernel : value := VObject (PyObject 13 true false).
Definition default_method : value := VObject (PyObject 14 false false).
Definition scotts_rule : value := VObject (PyObject 15 true false).

(** A kernel instance. *)
Definition tricube : value := VObject (PyObject 21 false false).

(** A method that fits nothing and leaves [out] as it is. *)
Definition method_fit (_ : value) (self : instance) : Py instance :=
  ret self.
Definition method_evaluate (_ : value) (_ : instance) (_ out : ndarray)
  : Py ndarray := ret out.

Definition floats (l : list float) : list scalar := map SFloat l.

(** [np.array([1., 2., 3.])] and [np.array([2., 4., 6.])] *)
Definition xs : value := Array (NdArray 16 [3] (floats [1; 2; 3]%float)).
Definition ys : value := Array (NdArray 17 [3] (floats [2; 4; 6]%float)).

(** [np.array([2., 4.])] *)
Definition ys2 : value := Array (NdArray 18 [2] (floats [2; 4]%float)).

(** [np.arange(6.).reshape(2, 3)]: two dimensions, three points *)
Definition xs_2x3 : value :=
  Array (NdArray 19 [2; 3] (floats [0; 1; 2; 3; 4; 5]%float)).

(** [np.zeros((2, 2, 2))] *)
Definition xs_rank3 : value :=
  Array (NdArray 20 [2; 2; 2] (floats [0; 0; 0; 0; 0; 0; 0; 0]%float)).

(** The first identity that no sample object uses. *)
Definition next : nat := 22.

(** The [copy] method of the sample objects that have one: a new object of
    the same kind. *)
Definition object_copy (o : pyobject) : Py value :=
  i <- fresh ;; ret (VObject (PyObject i (obj_callable o) true)).

(** A [copy] that cannot be called on the object that holds it, as the
    method [copy] of a class looked up on the class itself. *)
Definition unbound_copy (_ : pyobject) : Py value :=
  raise (TypeError "copy() missing 1 required positional argument: 'self'").

(** A class that defines [copy]. *)
Definition copyable_class : value := VObject (PyObject 30 true true).

Definition copy := NonParamRegression.copy object_copy.

Definition construct :=
  NonParamRegression.construct normal_kernel default_method.
Definition fit := NonParamRegression.fit method_fit.
Definition evaluate := NonParamRegression.evaluate method_evaluate.

(** The model [NonParamRegression(xs, ys)]. *)
Definition model : instance :=
  Eval vm_compute in
    match construct xs ys [] next with
    | Returns self _ => self
    | Raises _ => []
    end.

(** Objects made after the model: a buffer of three floats, a buffer of one
    float, another kernel class; and the first identity free after them. *)
Definition buffer : ndarray := NdArray 22 [3] (floats [0; 0; 0]%float).
Definition cell : ndarray := NdArray 23 [1] (floats [0]%float).
Definition tricube_class : value := VObject (PyObject 24 true false).
Definition later : nat := 25.

End Sample.

(** ** Vocabulary of the statements *)

(** The options the documentation of the constructor recognizes. *)
Definition recognized_options : list string :=
  [ "kernel"; "kernel_class"; "bandwidth"; "covariance"; "method";
    "lower"; "upper" ].

(** The names under which the class, or [object], holds a descriptor that
    intercepts assignment. *)
Definition descriptor_names : list string :=
  [ "kernel"; "kernel_class"; "bandwidth"; "covariance"; "lower"; "upper";
    "xdata"; "ydata"; "method"; "N"; "dim";
    "__class__"; "__dict__"; "__weakref__" ].



(** [c] is what [copy] stores for the member [v]: a new array with the
    shape and the elements of [v] when [v] is an array; what [v.copy()]
    returned when [v] is an object with a [copy] method, or [v] itself when
    that call raised [AttributeError]; [v] itself, shared, when [v] has no
    [copy] method. *)
Definition copied (object_copy : pyobject -> Py value) (v c : value) : Prop :=
  match v with
  | Array a => exists i, c = Array (NdArray i (shape a) (data a))
  | VObject o =>
      if obj_has_copy o then
        (exists k k', object_copy o k = Returns c k') \/
        ((exists k msg, object_copy o k = Raises (AttributeError msg)) /\
         c = v)
      else c = v
  | _ => c = v
  end.


(** The instance dictionary when the keyword loop of [__init__] starts. *)
Definition initial_fields (xd yd : ndarray) : instance :=
  [ ("_xdata", Array xd); ("_ydata", Array yd); ("_kernel_class", VNone);
    ("_covariance", VNone); ("_cov_fct", VNone); ("_bandwidth", VNone);
    ("_bw_fct", VNone); ("_method", VNone); ("_fitted", VBool false);
    ("_kernel", VNone); ("_lower", VNone); ("_upper", VNone);
    ("_n", VNone); ("_d", VNone) ].

(** Lines 46-50 of [__init__]: the defaults for the kernel and the method. *)
Definition init_defaults (normal_kernel default_method : value)
    (self : instance) : Py instance :=
  k <- attr self "_kernel" ;;
  self <- (if is_none k then setattr self "kernel_class" normal_kernel
           else ret self) ;;
  m <- attr self "_method" ;;
  if is_none m then store "_method" default_method self else ret self.

(** The shape and the elements numpy sees in a value. *)
Definition shape_value (v : value) : list nat :=
  match v with
  | Array a => shape a
  | Scalar _ => []
  end.

Definition elements (v : value) : list scalar :=
  match v with
  | Array a => data a
  | Scalar s => [s]
  end.

(** The number M of query points in the argument of [evaluate]: one for a
    scalar, the length of a vector, the number of columns of a matrix. *)
Definition query_count (points : value) : nat :=
  match shape_value points with
  | [] => 1
  | [m] => m
  | _ :: m :: _ => m
  end.

(** Lines 240-246 of [evaluate], on the points [p] as a matrix and the
    shape [real_shape] they came with. *)
Definition evaluate_tail
    (method_evaluate : value -> instance -> ndarray -> ndarray -> Py ndarray)
    (self : instance) (real_shape : list nat) (p : ndarray)
    (out : option ndarray) : Py ndarray :=
  out <- (match out with
          | None =>
              m <- shape_last (shape p) ;;
              y <- load_global "y" ;;
              np_empty_float m y
          | Some out =>
              m <- shape_last (shape p) ;;
              set_shape out [m]
          end) ;;
  meth <- attr self "_method" ;;
  out <- method_evaluate meth self p out ;;
  out <- set_shape out (shape_tail1 real_shape) ;;
  ret out.

(** The properties of the class that have a setter. *)
Definition writable_properties : list string :=
  [ "kernel"; "kernel_class"; "bandwidth"; "covariance"; "method";
    "lower"; "upper"; "xdata"; "ydata" ].

(** The fields of the instance an assignment to a property may write. *)
Definition fields_written (name : string) : list string :=
  if String.eqb name "kernel" || String.eqb name "kernel_class" then
    [ "_kernel"; "_kernel_class" ]
  else if String.eqb name "bandwidth" || String.eqb name "covariance" then
    [ "_bw_fct"; "_cov_fct"; "_bandwidth"; "_covariance" ]
  else if String.eqb name "method" then [ "_method" ]
  else if String.eqb name "lower" then [ "_lower" ]
  else if String.eqb name "upper" then [ "_upper" ]
  else if String.eqb name "xdata" then [ "_xdata" ]
  else if String.eqb name "ydata" then [ "_ydata" ]
  else [].


(** The fields the recognized options may write. *)
Definition option_fields : list string :=
  [ "_kernel"; "_kernel_class"; "_bw_fct"; "_cov_fct"; "_bandwidth";
    "_covariance"; "_method"; "_lower"; "_upper" ].

(** A run of stores [self.k = v], first to last. *)
Definition apply_updates (updates : list (string * value))
    (self : instance) : instance :=
  fold_left (fun d kv => dict_set (fst kv) (snd kv) d) updates self.


(** The shape [np.atleast_2d] gives to a value of rank at most 2. *)
Definition shape_2d (v : value) : list nat :=
  match shape_value v with
  | [] => [1; 1]
  | [m] => [1; m]
  | s => s
  end.

(** ** Dictionary lemmas *)

Lemma dict_get_set_same (k : string) (v : value) (d : dict) :
  dict_get k (dict_set k v d) = Some v.
Proof.
  induction d as [|[k' v'] d IH]; simpl.
  - now rewrite String.eqb_refl.
  - destruct (String.eqb k k') eqn:E; simpl; rewrite ?E; auto.
    now rewrite String.eqb_refl.
Qed.

Lemma dict_get_set_other (k k' : string) (v : value) (d : dict) :
  String.eqb k' k = false ->
  dict_get k' (dict_set k v d) = dict_get k' d.
Proof.
  intros Hne. induction d as [|[k0 v0] d IH]; simpl.
  - now rewrite Hne.
  - destruct (String.eqb k k0) eqn:E; simpl.
    + apply String.eqb_eq in E; subst k0. now rewrite Hne.
    + now rewrite IH.
Qed.

Lemma dict_get_set (k k' : string) (v : value) (d : dict) :
  dict_get k' (dict_set k v d) =
  if String.eqb k' k then Some v else dict_get k' d.
Proof.
  destruct (String.eqb k' k) eqn:E.
  - apply String.eqb_eq in E; subst. apply dict_get_set_same.
  - now apply dict_get_set_other.
Qed.


(** Unfolding the monad on stores. *)
Ltac run :=
  cbv [setattr getattr delattr class_lookup class_lookup_in class_dict
       kernel_setter kernel_class_setter bandwidth_setter covariance_setter
       lower_deleter upper_deleter method_setter
       String.eqb Ascii.eqb Bool.eqb store bind ret raise].

Ltac lookup :=
  repeat (rewrite dict_get_set; cbn [String.eqb Ascii.eqb Bool.eqb]).

(** ** The kernel and its class *)

Lemma kernel_setter_spec (self : instance) (k : value) (n : nat) :
  setattr self "kernel" k n =
  Returns (dict_set "_kernel" k (dict_set "_kernel_class" VNone self)) n.
Proof. reflexivity. Qed.

Lemma kernel_class_setter_spec (self : instance) (k : value) (n : nat) :
  setattr self "kernel_class" k n =
  Returns (dict_set "_kernel_class" k (dict_set "_kernel" VNone self)) n.
Proof. reflexivity. Qed.

(** ** Bandwidth and covariance *)

Lemma bandwidth_setter_spec (self : instance) (bw : value) (n : nat) :
  setattr self "bandwidth" bw n =
  Returns
    (let self := dict_set "_cov_fct" VNone (dict_set "_bw_fct" VNone self) in
     if callable bw then dict_set "_bw_fct" bw self
     else dict_set "_covariance" VNone (dict_set "_bandwidth" bw self)) n.
Proof. run. now destruct (callable bw). Qed.

Lemma covariance_setter_spec (self : instance) (cov : value) (n : nat) :
  setattr self "covariance" cov n =
  Returns
    (let self := dict_set "_cov_fct" VNone (dict_set "_bw_fct" VNone self) in
     if callable cov then dict_set "_cov_fct" cov self
     else dict_set "_bandwidth" VNone (dict_set "_covariance" cov self)) n.
Proof. run. now destruct (callable cov). Qed.

(** C2, as amended: assigning [bandwidth = v] always clears both callables;
    a [v] that is not callable is stored as the bandwidth value and clears
    the covariance value; a callable [v] is stored as the bandwidth callable
    and leaves both fixed values as they were.  The same holds for
    [covariance = v] with the roles exchanged. *)
Theorem bandwidth_covariance_assignment
    (self : instance) (v : value) (n : nat) :
  (exists self', setattr self "bandwidth" v n = Returns self' n /\
     dict_get "_cov_fct" self' = Some VNone /\
     if callable v then
       dict_get "_bw_fct" self' = Some v /\
       dict_get "_bandwidth" self' = dict_get "_bandwidth" self /\
       dict_get "_covariance" self' = dict_get "_covariance" self
     else
       dict_get "_bw_fct" self' = Some VNone /\
       dict_get "_bandwidth" self' = Some v /\
       dict_get "_covariance" self' = Some VNone) /\
  (exists self', setattr self "covariance" v n = Returns self' n /\
     dict_get "_bw_fct" self' = Some VNone /\
     if callable v then
       dict_get "_cov_fct" self' = Some v /\
       dict_get "_covariance" self' = dict_get "_covariance" self /\
       dict_get "_bandwidth" self' = dict_get "_bandwidth" self
     else
       dict_get "_cov_fct" self' = Some VNone /\
       dict_get "_covariance" self' = Some v /\
       dict_get "_bandwidth" self' = Some VNone).
Proof.
  split.
  - rewrite bandwidth_setter_spec. eexists; split; [reflexivity|].
    cbv zeta. destruct (callable v); lookup; auto.
  - rewrite covariance_setter_spec. eexists; split; [reflexivity|].
    cbv zeta. destruct (callable v); lookup; auto.
Qed.

(** C2, as stated, fails: on a model built with [covariance=2.0], the
    assignment [bandwidth = scotts_rule] of a callable leaves the covariance
    value in place; and on a model built with [bandwidth=2.0], the
    assignment [covariance = scotts_rule] leaves the bandwidth value. *)
Lemma callable_assignment_keeps_counterpart :
  (exists self n self',
     Sample.construct Sample.xs Sample.ys
       [("covariance", VFloat 2%float)] Sample.next = Returns self n /\
     callable Sample.scotts_rule = true /\
     setattr self "bandwidth" Sample.scotts_rule n = Returns self' n /\
     dict_get "_covariance" self' = Some (VFloat 2%float) /\
     dict_get "_covariance" self' <> Some VNone) /\
  (exists self n self',
     Sample.construct Sample.xs Sample.ys
       [("bandwidth", VFloat 2%float)] Sample.next = Returns self n /\
     callable Sample.scotts_rule = true /\
     setattr self "covariance" Sample.scotts_rule n = Returns self' n /\
     dict_get "_bandwidth" self' = Some (VFloat 2%float) /\
     dict_get "_bandwidth" self' <> Some VNone).
Proof.
  split; do 3 eexists; (split; [vm_compute; reflexivity|]);
    (split; [reflexivity|]); (split; [vm_compute; reflexivity|]);
    (split; [reflexivity|]); vm_compute; discriminate.
Qed.

(** ** Construction *)

Lemma asanyarray_returns (v : value) (n : nat) :
  exists a n', asanyarray v n = Returns a n' /\ n <= n' /\
               length (shape a) = rank v.
Proof.
  destruct v as [s|a]; simpl.
  - exists (NdArray n [] [s]), (S n). repeat split; auto.
  - exists a, n. repeat split; auto.
Qed.

Lemma atleast_1d_returns (v : value) (n : nat) :
  exists a n', atleast_1d v n = Returns a n' /\ n <= n' /\
               length (shape a) = Nat.max 1 (rank v).
Proof.
  destruct v as [s|[i sh d]]; cbv [atleast_1d asanyarray bind ret fresh].
  - exists (NdArray n [1] [s]), (S n). repeat split; auto.
  - cbv [ndim shape]. destruct sh as [|k sh]; simpl.
    + exists (NdArray i [1] d), n. repeat split; auto.
    + exists (NdArray i (k :: sh) d), n. repeat split; auto.
Qed.

Lemma atleast_2d_returns (v : value) (n : nat) :
  exists a n', atleast_2d v n = Returns a n' /\ n <= n' /\
               length (shape a) = Nat.max 2 (rank v).
Proof.
  destruct v as [s|[i sh d]]; cbv [atleast_2d asanyarray bind ret fresh].
  - exists (NdArray n [1; 1] [s]), (S n). repeat split; auto.
  - cbv [shape]. destruct sh as [|k [|k' sh]]; simpl.
    + exists (NdArray i [1; 1] d), n. repeat split; auto.
    + exists (NdArray i [1; k] d), n. repeat split; auto.
    + exists (NdArray i (k :: k' :: sh) d), n. repeat split; auto.
Qed.

(** A name that is no descriptor of the class goes to the instance
    dictionary. *)
Lemma setattr_plain (self : instance) (key : string) (v : value) (n : nat) :
  ~ In key descriptor_names ->
  setattr self key v n = Returns (dict_set key v self) n.
Proof.
  intros Hkey. cbv [setattr class_lookup class_lookup_in class_dict].
  repeat match goal with
  | |- context [String.eqb key ?s] =>
      destruct (String.eqb_spec key s) as [->|?];
      [ first [ reflexivity | exfalso; apply Hkey; simpl; tauto ] | ]
  end.
  reflexivity.
Qed.


Section Construction.

Variable normal_kernel default_method : value.

Local Abbreviation construct :=
  (NonParamRegression.construct normal_kernel default_method).

Lemma init_unfold (xdata ydata : value) (kwords : dict) (n : nat) :
  __init__ normal_kernel default_method [] xdata ydata kwords n =
  (xd <- atleast_2d xdata ;;
   yd <- atleast_1d ydata ;;
   self <- init_loop (dict_keys kwords) kwords (initial_fields xd yd) ;;
   init_defaults normal_kernel default_method self) n.
Proof.
  cbv [__init__ bind store ret].
  destruct (atleast_2d xdata n) as [xd n1|e]; [|reflexivity].
  destruct (atleast_1d ydata n1) as [yd n2|e]; reflexivity.
Qed.

Lemma is_none_true (v : value) : is_none v = true -> v = VNone.
Proof. destruct v as [[| | | |]|]; simpl; congruence. Qed.

Lemma init_defaults_returns (self : instance) (k m : value) (n : nat) :
  dict_get "_kernel" self = Some k ->
  dict_get "_method" self = Some m ->
  exists self',
    init_defaults normal_kernel default_method self n = Returns self' n /\
    forall key, String.eqb key "_kernel_class" = false ->
                String.eqb key "_method" = false ->
                dict_get key self' = dict_get key self.
Proof.
  intros Hk Hm. unfold init_defaults, attr, bind at 1. rewrite Hk.
  unfold ret at 1.
  assert (Hstep : exists self1,
             (if is_none k then setattr self "kernel_class" normal_kernel
              else ret self) n = Returns self1 n /\
             dict_get "_method" self1 = Some m /\
             forall key, String.eqb key "_kernel_class" = false ->
                         dict_get key self1 = dict_get key self).
  { destruct (is_none k) eqn:Ek.
    - rewrite kernel_class_setter_spec. eexists; split; [reflexivity|].
      split; [now lookup|]. intros key Hkey. rewrite dict_get_set, Hkey.
      rewrite dict_get_set. destruct (String.eqb_spec key "_kernel"); auto.
      subst key. apply is_none_true in Ek. congruence.
    - exists self. repeat split; auto. }
  destruct Hstep as (self1 & Hrun & Hm1 & Hkeep).
  unfold bind at 1. rewrite Hrun. unfold bind. rewrite Hm1.
  unfold ret at 1. destruct (is_none m).
  - eexists; split; [reflexivity|]. intros key Hkc Hme.
    rewrite dict_get_set, Hme. auto.
  - exists self1. split; [reflexivity|]. auto.
Qed.


(** Construction with no keyword never raises, whatever the rank of the
    data: [_xdata] has rank 2 or more, [_ydata] rank 1 or more. *)
Lemma construct_never_raises (xdata ydata : value) (n : nat) :
  exists self n' xd yd,
    construct xdata ydata [] n =
      Returns self n' /\
    dict_get "_xdata" self = Some (Array xd) /\
    dict_get "_ydata" self = Some (Array yd) /\
    length (shape xd) = Nat.max 2 (rank xdata) /\
    length (shape yd) = Nat.max 1 (rank ydata).
Proof.
  unfold NonParamRegression.construct. cbn [dict_keys map existsb]. rewrite init_unfold.
  destruct (atleast_2d_returns xdata n) as (xd & n1 & E1 & _ & Hx).
  unfold bind at 1. rewrite E1.
  destruct (atleast_1d_returns ydata n1) as (yd & n2 & E2 & _ & Hy).
  unfold bind at 1. rewrite E2.
  eexists _, n2, xd, yd. split; [reflexivity|]. repeat split; auto.
Qed.

End Construction.



(** C6: at [xdata = np.zeros((2, 2, 2))] the constructor raises nothing and
    stores the array of rank 3 as [_xdata], and it stores a [ydata] of rank 2
    as [_ydata]; the setters of [xdata] and [ydata], given the same arrays,
    fail their rank assertions.  A 1-D [xdata] does become a single row. *)
Theorem constructor_skips_rank_check :
  (exists self n,
     Sample.construct Sample.xs_rank3 Sample.xs_2x3 [] Sample.next =
       Returns self n /\
     dict_get "_xdata" self = Some Sample.xs_rank3 /\
     rank Sample.xs_rank3 = 3 /\
     dict_get "_ydata" self = Some Sample.xs_2x3 /\
     rank Sample.xs_2x3 = 2 /\
     setattr self "xdata" Sample.xs_rank3 n =
       Raises (AssertionError "The xdata must be at most a 2D array") /\
     setattr self "ydata" Sample.xs_2x3 n =
       Raises (AssertionError "The ydata must be at most a 1D array")) /\
  (exists self n xd,
     Sample.construct Sample.xs Sample.ys [] Sample.next = Returns self n /\
     dict_get "_xdata" self = Some (Array xd) /\
     shape xd = [1; 3] /\ data xd = elements Sample.xs).
Proof.
  split.
  - do 2 eexists. split; [vm_compute; reflexivity|].
    repeat split; reflexivity.
  - do 3 eexists. split; [vm_compute; reflexivity|].
    repeat split; reflexivity.
Qed.

(** ** [fit] *)

Section Fit.

Variable method_fit : value -> instance -> Py instance.

Local Abbreviation fit := (NonParamRegression.fit method_fit).
Local Abbreviation fit_from := (NonParamRegression.fit_from method_fit).

(** Line 221 reads the name [D], which nothing binds: [fit] raises
    [NameError] on every model, before it looks at the data. *)
Lemma fit_raises_NameError (self : instance) (n : nat) :
  fit self n = Raises (NameError "D").
Proof. reflexivity. Qed.

End Fit.

(** C1: on a model with two dimensions and three points whose bounds were
    never set, [fit] raises [NameError] and sets no bound; and lines 222-230,
    run with [D = 2] and [N = 3] as the unpacking meant, size both default
    bounds by the three points, not by the two dimensions. *)
Theorem fit_default_bounds_at_2x3 :
  exists self n,
    Sample.construct Sample.xs_2x3 Sample.ys [] Sample.next =
      Returns self n /\
    dict_get "_xdata" self = Some Sample.xs_2x3 /\
    shape_value Sample.xs_2x3 = [2; 3] /\
    dict_get "_lower" self = Some VNone /\
    dict_get "_upper" self = Some VNone /\
    Sample.fit self n = Raises (NameError "D") /\
    exists self' n' lower upper,
      NonParamRegression.fit_from Sample.method_fit (VInt 2) (VInt 3) self n =
        Returns self' n' /\
      dict_get "_lower" self' = Some (Array lower) /\
      dict_get "_upper" self' = Some (Array upper) /\
      shape lower = [3] /\
      data lower = repeat (SFloat neg_infinity) 3 /\
      shape upper = [3] /\
      data upper = repeat (SFloat infinity) 3.
Proof.
  do 2 eexists. split; [vm_compute; reflexivity|].
  do 5 (split; [reflexivity|]).
  do 4 eexists. split; [vm_compute; reflexivity|].
  repeat split; reflexivity.
Qed.

(** C4: with three points in [xdata] and two values in [ydata] the
    constructor returns a model, and [fit] on it raises [NameError] for the
    name [D], not the assertion on the number of points; that assertion,
    reached with [D = 1] and [N = 3] bound, does fail on this model. *)
Theorem fit_mismatch_at_3_and_2 :
  exists self n xd yd,
    Sample.construct Sample.xs Sample.ys2 [] Sample.next = Returns self n /\
    dict_get "_xdata" self = Some (Array xd) /\ shape xd = [1; 3] /\
    dict_get "_ydata" self = Some (Array yd) /\ shape yd = [2] /\
    Sample.fit self n = Raises (NameError "D") /\
    Sample.fit self n <>
      Raises (AssertionError "There must be as many points for X and Y") /\
    NonParamRegression.fit_from Sample.method_fit (VInt 1) (VInt 3) self n =
      Raises (AssertionError "There must be as many points for X and Y").
Proof.
  do 4 eexists. split; [vm_compute; reflexivity|].
  do 5 (split; [reflexivity|]). split; [|reflexivity].
  vm_compute. discriminate.
Qed.

(** ** [evaluate] *)

Lemma prod_shape_row (m : nat) :
  Nat.eqb (prod_shape [1; m]) (prod_shape [m]) = true.
Proof. apply Nat.eqb_eq. simpl. lia. Qed.

Lemma prod_shape_single (m : nat) : prod_shape [m] = m.
Proof. simpl. lia. Qed.

Section Evaluate.

Variable method_evaluate :
  value -> instance -> ndarray -> ndarray -> Py ndarray.

Local Abbreviation evaluate := (NonParamRegression.evaluate method_evaluate).

(** Lines 233-239: points of rank at most 2 become a matrix with one point
    per column, on the buffer they came with. *)
Lemma evaluate_promotes (self : instance) (points : value)
    (out : option ndarray) (n : nat) :
  rank points < 3 ->
  exists p n' d,
    shape p = [d; query_count points] /\
    data p = elements points /\
    n <= n' /\
    evaluate self points out n =
    evaluate_tail method_evaluate self (shape_value points) p out n'.
Proof.
  intros Hrank. destruct points as [s|[i sh dat]].
  - exists (NdArray n [1; 1] [s]), (S n), 1. repeat split; auto.
  - cbv [rank ndim shape] in Hrank.
    destruct sh as [|m [|m' [|m'' sh]]]; simpl in Hrank; try lia.
    + exists (NdArray i [1; 1] dat), n, 1. repeat split; auto.
    + exists (NdArray i [1; m] dat), n, 1. repeat split; auto.
      cbv [NonParamRegression.evaluate asanyarray bind ret shape assert
           length Nat.ltb Nat.leb reshape size arr_id data].
      rewrite prod_shape_row. reflexivity.
    + exists (NdArray i [m; m'] dat), n, m. repeat split; auto.
Qed.

Lemma evaluate_rejects_rank3 (self : instance) (points : value)
    (out : option ndarray) (n : nat) :
  Nat.ltb (rank points) 3 = false ->
  evaluate self points out n =
  Raises (AssertionError "The input points can be at most a 2D array").
Proof.
  intros Hrank. destruct points as [s|[i sh dat]]; [discriminate|].
  destruct sh as [|m [|m' [|m'' sh]]]; try discriminate. reflexivity.
Qed.

(** With the default [out=None], line 241 reads the name [y], which
    nothing binds. *)
Lemma evaluate_default_out (self : instance) (points : value) (n : nat) :
  evaluate self points None n =
  if Nat.ltb (rank points) 3 then Raises (NameError "y")
  else Raises (AssertionError "The input points can be at most a 2D array").
Proof.
  destruct (Nat.ltb (rank points) 3) eqn:Hrank.
  - apply Nat.ltb_lt in Hrank.
    destruct (evaluate_promotes self points None n Hrank)
      as (p & n' & d & Hp & _ & _ & ->).
    unfold evaluate_tail. rewrite Hp. reflexivity.
  - now apply evaluate_rejects_rank3.
Qed.

(** C5: for points of rank at most 2, [evaluate(points)] with the default
    [out=None] allocates nothing: it raises [NameError] for the name [y];
    [evaluate(points, out)] with a buffer whose size is not the number M
    of query points fails in the assignment to [out.shape]. *)
Theorem evaluate_output_buffer
    (self : instance) (points : value) (out : ndarray) (n : nat) :
  evaluate self points None n =
    (if Nat.ltb (rank points) 3 then Raises (NameError "y")
     else Raises
            (AssertionError "The input points can be at most a 2D array")) /\
  (if Nat.ltb (rank points) 3 &&
      negb (Nat.eqb (size out) (query_count points))
   then evaluate self points (Some out) n =
          Raises (ValueError "cannot reshape array")
   else True).
Proof.
  split; [apply evaluate_default_out|].
  destruct (Nat.ltb (rank points) 3) eqn:Hrank; [|exact I].
  destruct (Nat.eqb (size out) (query_count points)) eqn:Hsize; [exact I|].
  cbn [andb negb]. apply Nat.ltb_lt in Hrank.
  destruct (evaluate_promotes self points (Some out) n Hrank)
    as (p & n' & d & Hp & _ & _ & ->).
  unfold evaluate_tail. rewrite Hp.
  cbv [shape_last rev app bind ret set_shape].
  rewrite prod_shape_single, Nat.eqb_sym, Hsize. reflexivity.
Qed.

(** C3: with the default [out=None], [evaluate] returns nothing for any of
    the three ranks: on a scalar, on a vector of length [M] and on a matrix
    of [D] rows and [M] columns it raises [NameError] for the name [y], on
    every model and with every method. *)
Theorem evaluate_three_ranks_default_out
    (self : instance) (s : scalar) (i D M : nat) (dat : list scalar)
    (n : nat) :
  evaluate self (Scalar s) None n = Raises (NameError "y") /\
  evaluate self (Array (NdArray i [M] dat)) None n =
    Raises (NameError "y") /\
  evaluate self (Array (NdArray i [D; M] dat)) None n =
    Raises (NameError "y").
Proof. repeat split; apply evaluate_default_out. Qed.

Lemma prod_shape_tail1 (points : value) :
  rank points < 3 ->
  prod_shape (shape_tail1 (shape_value points)) = query_count points.
Proof.
  destruct points as [s|[i sh dat]]; [reflexivity|].
  cbv [rank ndim shape shape_value query_count].
  destruct sh as [|m [|m' [|m'' sh]]]; simpl; lia.
Qed.

(** What the squeeze of lines 243-245 does once a buffer is supplied: when
    its size is the number of query points and the method fills it without
    touching its shape, the result has the last axis of the shape the
    points came with: no axis for a scalar, [M] for a vector and for a
    matrix of [M] columns. *)
Lemma evaluate_with_buffer (self : instance) (points meth : value)
    (out : ndarray) (n : nat) :
  rank points < 3 ->
  size out = query_count points ->
  dict_get "_method" self = Some meth ->
  (forall p o k, exists o' k',
      method_evaluate meth self p o k = Returns o' k' /\
      shape o' = shape o) ->
  exists res n',
    evaluate self points (Some out) n = Returns res n' /\
    shape res = shape_tail1 (shape_value points).
Proof.
  intros Hrank Hsize Hmeth Hfill.
  destruct (evaluate_promotes self points (Some out) n Hrank)
    as (p & n' & d & Hp & _ & _ & ->).
  unfold evaluate_tail. rewrite Hp.
  cbv [shape_last rev app]. unfold bind at 2. unfold ret at 1.
  unfold set_shape at 1. rewrite prod_shape_single, Hsize, Nat.eqb_refl.
  unfold bind at 1. unfold ret at 1. unfold bind at 1, attr.
  rewrite Hmeth. unfold ret at 1.
  set (o := NdArray (arr_id out) [query_count points] (data out)).
  destruct (Hfill p o n') as (o' & k' & Hrun & Hshape).
  unfold bind at 1. rewrite Hrun.
  unfold bind, set_shape, size. rewrite Hshape. cbn [shape o].
  rewrite prod_shape_tail1, prod_shape_single, Nat.eqb_refl by assumption.
  do 2 eexists. split; reflexivity.
Qed.

End Evaluate.

(** ** The domain bounds *)

Lemma bound_setter_spec (name msg : string) (self : instance) (l : value)
    (n : nat) :
  (l' <- atleast_1d l ;;
   assert (Nat.eqb (length (shape l')) 1) msg ;;
   store name (Array l') self) n =
  match shape_value l with
  | [] =>
      match l with
      | Scalar s => Returns (dict_set name (Array (NdArray n [1] [s])) self) (S n)
      | Array a =>
          Returns (dict_set name (Array (NdArray (arr_id a) [1] (data a))) self) n
      end
  | [_] => Returns (dict_set name l self) n
  | _ => Raises (AssertionError msg)
  end.
Proof.
  destruct l as [s|[i sh dat]]; [reflexivity|].
  destruct sh as [|m [|m' sh]]; reflexivity.
Qed.

(** C8, as amended: assigning to [lower] or [upper] stores the value when
    its rank is at most 1, a scalar being promoted to a vector of length 1
    and a vector stored as it is, and fails the assertion when the rank is 2
    or more; deleting a bound resets it to [None], the unset state. *)
Theorem bound_assignment (self : instance) (l : value) (n : nat) :
  (if Nat.leb (rank l) 1 then
     exists a n',
       setattr self "lower" l n =
         Returns (dict_set "_lower" (Array a) self) n' /\
       shape a = (if Nat.eqb (rank l) 0 then [1] else shape_value l) /\
       data a = elements l
   else
     setattr self "lower" l n =
       Raises (AssertionError "The lower bound must be at most a 1D array")) /\
  (if Nat.leb (rank l) 1 then
     exists a n',
       setattr self "upper" l n =
         Returns (dict_set "_upper" (Array a) self) n' /\
       shape a = (if Nat.eqb (rank l) 0 then [1] else shape_value l) /\
       data a = elements l
   else
     setattr self "upper" l n =
       Raises (AssertionError "The upper bound must be at most a 1D array")) /\
  delattr self "lower" n = Returns (dict_set "_lower" VNone self) n /\
  delattr self "upper" n = Returns (dict_set "_upper" VNone self) n.
Proof.
  split; [|split; [|split; reflexivity]].
  - change (setattr self "lower" l n) with
      ((l' <- atleast_1d l ;;
        assert (Nat.eqb (length (shape l')) 1)
               "The lower bound must be at most a 1D array" ;;
        store "_lower" (Array l') self) n).
    rewrite bound_setter_spec.
    destruct l as [s|[i sh dat]].
    + do 2 eexists. split; [reflexivity|]. split; reflexivity.
    + destruct sh as [|m [|m' sh]]; cbn.
      * do 2 eexists. split; [reflexivity|]. split; reflexivity.
      * do 2 eexists. split; [reflexivity|]. split; reflexivity.
      * reflexivity.
  - change (setattr self "upper" l n) with
      ((l' <- atleast_1d l ;;
        assert (Nat.eqb (length (shape l')) 1)
               "The upper bound must be at most a 1D array" ;;
        store "_upper" (Array l') self) n).
    rewrite bound_setter_spec.
    destruct l as [s|[i sh dat]].
    + do 2 eexists. split; [reflexivity|]. split; reflexivity.
    + destruct sh as [|m [|m' sh]]; cbn.
      * do 2 eexists. split; [reflexivity|]. split; reflexivity.
      * do 2 eexists. split; [reflexivity|]. split; reflexivity.
      * reflexivity.
Qed.

(** C8, as stated, fails: the scalar [0.0], which has rank 0 and is no 1-D
    vector, is accepted as a lower and as an upper bound and stored as a
    vector of length 1. *)
Lemma scalar_bound_is_accepted :
  rank (VFloat 0%float) = 0 /\
  exists self n lo up,
    Sample.construct Sample.xs Sample.ys [] Sample.next = Returns self n /\
    setattr self "lower" (VFloat 0%float) n =
      Returns (dict_set "_lower" (Array lo) self) (S n) /\
    setattr self "upper" (VFloat 0%float) n =
      Returns (dict_set "_upper" (Array up) self) (S n) /\
    shape lo = [1] /\ shape up = [1].
Proof.
  split; [reflexivity|].
  do 4 eexists. split; [vm_compute; reflexivity|].
  split; [vm_compute; reflexivity|].
  split; [vm_compute; reflexivity|]. split; reflexivity.
Qed.

(** ** [copy] *)


Lemma private_not_descriptor (m : string) :
  is_private_member m = true -> ~ In m descriptor_names.
Proof.
  destruct m as [|c0 [|c1 rest]]; simpl; try discriminate.
  intros Hp Hin. apply andb_true_iff in Hp. destruct Hp as [H0 H1].
  apply Ascii.eqb_eq in H0. subst c0.
  repeat (destruct Hin as [Hin|Hin]; [try discriminate Hin|]);
    try contradiction;
    injection Hin as <- _; discriminate H1.
Qed.


Section Copy.

Variable object_copy : pyobject -> Py value.

Local Abbreviation copy_loop := (NonParamRegression.copy_loop object_copy).
Local Abbreviation copy := (NonParamRegression.copy object_copy).

(** A value that [obj.copy()] returns is a copy of [obj]. *)
Lemma call_copy_returns (v c : value) (n n' : nat) :
  call_copy object_copy v n = Returns c n' -> copied object_copy v c.
Proof.
  destruct v as [[| | | |o]|a]; simpl; try discriminate.
  - destruct (obj_has_copy o); [|discriminate].
    intros Hrun. left. eauto.
  - unfold bind, fresh, ret. intros Hrun. injection Hrun as <- _. eauto.
Qed.

(** When [obj.copy()] raises [AttributeError], [obj] itself is stored. *)
Lemma call_copy_AttributeError (v : value) (msg : string) (n : nat) :
  call_copy object_copy v n = Raises (AttributeError msg) ->
  copied object_copy v v.
Proof.
  destruct v as [[| | | |o]|a]; simpl; try reflexivity.
  - destruct (obj_has_copy o); [|reflexivity].
    intros Hrun. right. split; [eauto|reflexivity].
  - unfold bind, fresh, ret. discriminate.
Qed.


(** Lines 58-61 for a private member. *)
Lemma copy_step (m : string) (obj : value) (res : instance) (n : nat) :
  is_private_member m = true ->
  try_except_AttributeError
    (c <- call_copy object_copy obj ;; setattr res m c)
    (setattr res m obj) n =
  match call_copy object_copy obj n with
  | Returns c n1 => Returns (dict_set m c res) n1
  | Raises (AttributeError _) => Returns (dict_set m obj res) n
  | Raises e => Raises e
  end.
Proof.
  intros Hp. unfold try_except_AttributeError, bind.
  destruct (call_copy object_copy obj n) as [c n1|e].
  - now rewrite setattr_plain by now apply private_not_descriptor.
  - destruct e; try reflexivity.
    now rewrite setattr_plain by now apply private_not_descriptor.
Qed.

Lemma copy_step_returns (m : string) (obj : value) (res res1 : instance)
    (n n1 : nat) :
  is_private_member m = true ->
  try_except_AttributeError
    (c <- call_copy object_copy obj ;; setattr res m c)
    (setattr res m obj) n = Returns res1 n1 ->
  exists c, res1 = dict_set m c res /\ copied object_copy obj c.
Proof.
  intros Hp. rewrite copy_step by assumption.
  destruct (call_copy object_copy obj n) as [c n2|e] eqn:Hcall.
  - intros Hrun. injection Hrun as <- <-. exists c. split; [reflexivity|].
    eapply call_copy_returns; eauto.
  - destruct e; try discriminate.
    intros Hrun. injection Hrun as <- <-. exists obj. split; [reflexivity|].
    eapply call_copy_AttributeError; eauto.
Qed.





End Copy.



(** The other exceptions go through: a model that holds, as [_kernel_class],
    a class whose [copy] cannot be called on the class raises the
    [TypeError] of that call. *)
Lemma copy_propagates_TypeError :
  exists self n,
    setattr Sample.model "_kernel_class" Sample.copyable_class Sample.next =
      Returns self n /\
    NonParamRegression.copy Sample.unbound_copy self n =
      Raises
        (TypeError "copy() missing 1 required positional argument: 'self'").
Proof. do 2 eexists. split; vm_compute; reflexivity. Qed.

(** ** The kernel and its class: at most one is set *)

Lemma assign_at_most_one (a : kernel_assignment) (self : instance) (n : nat) :
  exists self', assign a self n = Returns self' n /\ at_most_one_kernel self'.
Proof.
  destruct a as [k|k]; simpl.
  - rewrite kernel_setter_spec. eexists; split; [reflexivity|].
    right. now lookup.
  - rewrite kernel_class_setter_spec. eexists; split; [reflexivity|].
    left. now lookup.
Qed.

Lemma assign_all_at_most_one (l : list kernel_assignment) :
  forall (self : instance) (n : nat),
    at_most_one_kernel self ->
    exists self', assign_all l self n = Returns self' n /\
                  at_most_one_kernel self'.
Proof.
  induction l as [|a l IH]; intros self n Hinv; simpl.
  - exists self. now split.
  - destruct (assign_at_most_one a self n) as (self1 & Hrun & Hinv1).
    unfold bind. rewrite Hrun. now apply IH.
Qed.

(** A store to a field other than the two kernel fields. *)
Lemma at_most_one_kernel_set (name : string) (v : value) (self : instance) :
  String.eqb "_kernel" name = false ->
  String.eqb "_kernel_class" name = false ->
  at_most_one_kernel self -> at_most_one_kernel (dict_set name v self).
Proof.
  intros H1 H2. unfold at_most_one_kernel.
  now rewrite !dict_get_set, H1, H2.
Qed.

Lemma bound_setter_keeps_kernel (name msg : string) (self self' : instance)
    (l : value) (n n' : nat) :
  String.eqb "_kernel" name = false ->
  String.eqb "_kernel_class" name = false ->
  (l' <- atleast_1d l ;;
   assert (Nat.eqb (length (shape l')) 1) msg ;;
   store name (Array l') self) n = Returns self' n' ->
  at_most_one_kernel self -> at_most_one_kernel self'.
Proof.
  intros H1 H2. rewrite bound_setter_spec. intros Hrun Hinv.
  destruct (shape_value l) as [|m [|m' sh]]; [destruct l| |];
    inversion Hrun; subst; now apply at_most_one_kernel_set.
Qed.

(** Every recognized option keeps the invariant, or fails. *)
Lemma setattr_option_at_most_one (key : string) (v : value)
    (self self' : instance) (n n' : nat) :
  In key recognized_options ->
  setattr self key v n = Returns self' n' ->
  at_most_one_kernel self -> at_most_one_kernel self'.
Proof.
  intros Hkey Hrun Hinv. simpl in Hkey.
  destruct Hkey as [<-|[<-|[<-|[<-|[<-|[<-|[<-|[]]]]]]]].
  - rewrite kernel_setter_spec in Hrun. inversion Hrun. right. now lookup.
  - rewrite kernel_class_setter_spec in Hrun. inversion Hrun. left. now lookup.
  - rewrite bandwidth_setter_spec in Hrun. inversion Hrun. cbv zeta.
    destruct (callable v);
      repeat (apply at_most_one_kernel_set; [reflexivity|reflexivity|]);
      exact Hinv.
  - rewrite covariance_setter_spec in Hrun. inversion Hrun. cbv zeta.
    destruct (callable v);
      repeat (apply at_most_one_kernel_set; [reflexivity|reflexivity|]);
      exact Hinv.
  - inversion Hrun. now apply at_most_one_kernel_set.
  - eapply bound_setter_keeps_kernel; [| |exact Hrun|exact Hinv]; reflexivity.
  - eapply bound_setter_keeps_kernel; [| |exact Hrun|exact Hinv]; reflexivity.
Qed.

Lemma init_loop_at_most_one (kwords : dict) (kws : list string) :
  forall (self self' : instance) (n n' : nat),
    Forall (fun kw => In kw recognized_options) kws ->
    init_loop kws kwords self n = Returns self' n' ->
    at_most_one_kernel self -> at_most_one_kernel self'.
Proof.
  induction kws as [|kw kws IH]; intros self self' n n' Hkws Hrun Hinv.
  - inversion Hrun. now subst.
  - inversion Hkws as [|? ? Hkw Hrest]; subst.
    cbn [init_loop] in Hrun.
    destruct (dict_get kw kwords) as [v|]; [|discriminate].
    unfold bind in Hrun.
    destruct (setattr self kw v n) as [self1 n1|e] eqn:Hset; [|discriminate].
    eapply IH; [exact Hrest|exact Hrun|].
    eapply setattr_option_at_most_one; eauto.
Qed.

Lemma init_defaults_at_most_one (normal_kernel default_method : value)
    (self self' : instance) (n n' : nat) :
  init_defaults normal_kernel default_method self n = Returns self' n' ->
  at_most_one_kernel self -> at_most_one_kernel self'.
Proof.
  unfold init_defaults, attr. intros Hrun Hinv. unfold bind at 1 in Hrun.
  destruct (dict_get "_kernel" self) as [k|] eqn:Hk; [|discriminate].
  unfold ret at 1 in Hrun. unfold bind at 1 in Hrun.
  assert (Hstep : exists self1,
             (if is_none k then setattr self "kernel_class" normal_kernel
              else ret self) n = Returns self1 n /\
             at_most_one_kernel self1).
  { destruct (is_none k).
    - rewrite kernel_class_setter_spec. eexists; split; [reflexivity|].
      left. now lookup.
    - exists self. now split. }
  destruct Hstep as (self1 & Hrun1 & Hinv1). rewrite Hrun1 in Hrun.
  unfold bind in Hrun.
  destruct (dict_get "_method" self1) as [m|]; [|discriminate].
  unfold ret at 1 in Hrun. destruct (is_none m); inversion Hrun; subst; auto.
  now apply at_most_one_kernel_set.
Qed.

Lemma construct_at_most_one (normal_kernel default_method : value)
    (xdata ydata : value) (kwords : dict) (self : instance) (n n' : nat) :
  Forall (fun kw => In kw recognized_options) (dict_keys kwords) ->
  construct normal_kernel default_method xdata ydata kwords n =
    Returns self n' ->
  at_most_one_kernel self.
Proof.
  intros Hkws. unfold construct.
  destruct (existsb _ (dict_keys kwords)); [discriminate|].
  rewrite init_unfold.
  destruct (atleast_2d_returns xdata n) as (xd & n1 & E1 & _ & _).
  unfold bind at 1. rewrite E1.
  destruct (atleast_1d_returns ydata n1) as (yd & n2 & E2 & _ & _).
  unfold bind at 1. rewrite E2. unfold bind.
  destruct (init_loop (dict_keys kwords) kwords (initial_fields xd yd) n2)
    as [self1 n3|e] eqn:Hloop; [|discriminate].
  intros Hrun. eapply init_defaults_at_most_one; [exact Hrun|].
  eapply init_loop_at_most_one; [exact Hkws|exact Hloop|].
  left. reflexivity.
Qed.

(** C9: assigning [kernel] stores the instance and clears [_kernel_class],
    assigning [kernel_class] stores the class and clears [_kernel]; hence
    at most one of the two is set after any sequence of at least one such
    assignment, from any state whatsoever, and after any sequence of them,
    the empty one included, on a model constructed with recognized
    options. *)
Theorem kernel_and_kernel_class_exclusive
    (normal_kernel default_method : value)
    (self : instance) (k : value) (n : nat)
    (a : kernel_assignment) (l : list kernel_assignment)
    (xdata ydata : value) (kwords : dict) (model : instance) (n' : nat) :
  (exists self', setattr self "kernel" k n = Returns self' n /\
     dict_get "_kernel" self' = Some k /\
     dict_get "_kernel_class" self' = Some VNone) /\
  (exists self', setattr self "kernel_class" k n = Returns self' n /\
     dict_get "_kernel_class" self' = Some k /\
     dict_get "_kernel" self' = Some VNone) /\
  (exists self', assign_all (a :: l) self n = Returns self' n /\
     at_most_one_kernel self') /\
  (Forall (fun kw => In kw recognized_options) (dict_keys kwords) ->
   construct normal_kernel default_method xdata ydata kwords n =
     Returns model n' ->
   exists model', assign_all l model n' = Returns model' n' /\
     at_most_one_kernel model').
Proof.
  split; [|split; [|split]].
  - rewrite kernel_setter_spec. eexists; split; [reflexivity|]. now lookup.
  - rewrite kernel_class_setter_spec. eexists; split; [reflexivity|].
    now lookup.
  - simpl. destruct (assign_at_most_one a self n) as (self1 & Hrun & Hinv1).
    unfold bind. rewrite Hrun. now apply assign_all_at_most_one.
  - intros Hkws Hrun. apply assign_all_at_most_one.
    eapply construct_at_most_one; eauto.
Qed.

(** A witness: a model built with a kernel instance and a bandwidth, then
    given a kernel class and again a kernel instance. *)
Lemma kernel_and_kernel_class_exclusive_witness :
  Forall (fun kw => In kw recognized_options)
         (dict_keys [("kernel", Sample.tricube);
                     ("bandwidth", VFloat 2%float)]) /\
  exists model n',
    Sample.construct Sample.xs Sample.ys
      [("kernel", Sample.tricube); ("bandwidth", VFloat 2%float)]
      Sample.next = Returns model n' /\
    exists model',
      assign_all [AssignKernelClass Sample.normal_kernel;
                  AssignKernel Sample.tricube] model n' =
        Returns model' n' /\
      at_most_one_kernel model'.
Proof.
  assert (Hkws : Forall (fun kw => In kw recognized_options)
                   (dict_keys [("kernel", Sample.tricube);
                               ("bandwidth", VFloat 2%float)]))
    by (repeat constructor; simpl; tauto).
  split; [exact Hkws|].
  do 2 eexists. split; [vm_compute; reflexivity|].
  refine (proj2 (proj2 (proj2
            (kernel_and_kernel_class_exclusive
               Sample.normal_kernel Sample.default_method
               [] VNone Sample.next (AssignKernel VNone) _
               Sample.xs Sample.ys _ _ _))) Hkws _).
  vm_compute. reflexivity.
Defined.

(** * Further properties of the class *)

(** ** Runs of stores *)

Lemma dict_get_apply_updates_other (f : string) (updates : list (string * value)) :
  forall self : instance,
    Forall (fun kv => String.eqb f (fst kv) = false) updates ->
    dict_get f (apply_updates updates self) = dict_get f self.
Proof.
  induction updates as [|[k v] updates IH]; intros self Hall; [reflexivity|].
  inversion Hall as [|? ? Hk Hrest]; subst. cbn [apply_updates fold_left fst snd].
  change (dict_get f (apply_updates updates (dict_set k v self)) =
          dict_get f self).
  rewrite IH by assumption. now apply dict_get_set_other.
Qed.

Lemma dict_get_apply_updates_present (f : string)
    (updates : list (string * value)) :
  forall self : instance,
    dict_get f self <> None ->
    dict_get f (apply_updates updates self) <> None.
Proof.
  induction updates as [|[k v] updates IH]; intros self Hf; [exact Hf|].
  cbn [apply_updates fold_left fst snd].
  change (dict_get f (apply_updates updates (dict_set k v self)) <> None).
  apply IH. rewrite dict_get_set. destruct (String.eqb f k); congruence.
Qed.

Lemma data_setter_spec (name msg : string) (self : instance) (d : value)
    (n : nat) :
  (xd <- atleast_2d d ;;
   assert (Nat.eqb (length (shape xd)) 2) msg ;;
   store name (Array xd) self) n =
  match d with
  | Scalar s =>
      Returns (dict_set name (Array (NdArray n [1; 1] [s])) self) (S n)
  | Array a =>
      match shape a with
      | [] =>
          Returns
            (dict_set name (Array (NdArray (arr_id a) [1; 1] (data a))) self) n
      | [m] =>
          Returns
            (dict_set name (Array (NdArray (arr_id a) [1; m] (data a))) self) n
      | [_; _] => Returns (dict_set name d self) n
      | _ => Raises (AssertionError msg)
      end
  end.
Proof.
  destruct d as [s|[i sh dat]]; [reflexivity|].
  destruct sh as [|m [|m' [|m'' sh]]]; reflexivity.
Qed.

Lemma setattr_xdata_unfold (self : instance) (d : value) (n : nat) :
  setattr self "xdata" d n =
  (xd <- atleast_2d d ;;
   assert (Nat.eqb (length (shape xd)) 2)
          "The xdata must be at most a 2D array" ;;
   store "_xdata" (Array xd) self) n.
Proof. reflexivity. Qed.

Lemma setattr_ydata_unfold (self : instance) (d : value) (n : nat) :
  setattr self "ydata" d n =
  (yd <- atleast_1d d ;;
   assert (Nat.eqb (length (shape yd)) 1)
          "The ydata must be at most a 1D array" ;;
   store "_ydata" (Array yd) self) n.
Proof. reflexivity. Qed.

Lemma setattr_lower_unfold (self : instance) (l : value) (n : nat) :
  setattr self "lower" l n =
  (l' <- atleast_1d l ;;
   assert (Nat.eqb (length (shape l')) 1)
          "The lower bound must be at most a 1D array" ;;
   store "_lower" (Array l') self) n.
Proof. reflexivity. Qed.

Lemma setattr_upper_unfold (self : instance) (l : value) (n : nat) :
  setattr self "upper" l n =
  (l' <- atleast_1d l ;;
   assert (Nat.eqb (length (shape l')) 1)
          "The upper bound must be at most a 1D array" ;;
   store "_upper" (Array l') self) n.
Proof. reflexivity. Qed.

(** An assignment to a property that returns has done a run of stores to
    the fields of that property. *)
Lemma setattr_updates (name : string) (v : value) (self self' : instance)
    (n n' : nat) :
  In name writable_properties ->
  setattr self name v n = Returns self' n' ->
  exists updates,
    self' = apply_updates updates self /\
    Forall (fun kv => In (fst kv) (fields_written name)) updates.
Proof.
  intros Hname Hrun. simpl in Hname.
  destruct Hname as [<-|[<-|[<-|[<-|[<-|[<-|[<-|[<-|[<-|[]]]]]]]]]].
  - rewrite kernel_setter_spec in Hrun. inversion Hrun.
    exists [("_kernel_class", VNone); ("_kernel", v)].
    split; [reflexivity|]. repeat constructor; simpl; tauto.
  - rewrite kernel_class_setter_spec in Hrun. inversion Hrun.
    exists [("_kernel", VNone); ("_kernel_class", v)].
    split; [reflexivity|]. repeat constructor; simpl; tauto.
  - rewrite bandwidth_setter_spec in Hrun. inversion Hrun. cbv zeta.
    destruct (callable v).
    + exists [("_bw_fct", VNone); ("_cov_fct", VNone); ("_bw_fct", v)].
      split; [reflexivity|]. repeat constructor; simpl; tauto.
    + exists [("_bw_fct", VNone); ("_cov_fct", VNone); ("_bandwidth", v);
              ("_covariance", VNone)].
      split; [reflexivity|]. repeat constructor; simpl; tauto.
  - rewrite covariance_setter_spec in Hrun. inversion Hrun. cbv zeta.
    destruct (callable v).
    + exists [("_bw_fct", VNone); ("_cov_fct", VNone); ("_cov_fct", v)].
      split; [reflexivity|]. repeat constructor; simpl; tauto.
    + exists [("_bw_fct", VNone); ("_cov_fct", VNone); ("_covariance", v);
              ("_bandwidth", VNone)].
      split; [reflexivity|]. repeat constructor; simpl; tauto.
  - inversion Hrun. exists [("_method", v)].
    split; [reflexivity|]. repeat constructor; simpl; tauto.
  - rewrite setattr_lower_unfold, bound_setter_spec in Hrun.
    destruct (shape_value v) as [|m [|m' sh]]; [destruct v| |];
      inversion Hrun; eexists [(_, _)];
      (split; [reflexivity|]); repeat constructor; simpl; tauto.
  - rewrite setattr_upper_unfold, bound_setter_spec in Hrun.
    destruct (shape_value v) as [|m [|m' sh]]; [destruct v| |];
      inversion Hrun; eexists [(_, _)];
      (split; [reflexivity|]); repeat constructor; simpl; tauto.
  - rewrite setattr_xdata_unfold, data_setter_spec in Hrun.
    destruct v as [s|[i sh dat]]; [|destruct sh as [|m [|m' [|m'' sh]]]];
      cbn [shape] in Hrun; inversion Hrun; eexists [(_, _)];
      (split; [reflexivity|]); repeat constructor; simpl; tauto.
  - rewrite setattr_ydata_unfold, bound_setter_spec in Hrun.
    destruct (shape_value v) as [|m [|m' sh]]; [destruct v| |];
      inversion Hrun; eexists [(_, _)];
      (split; [reflexivity|]); repeat constructor; simpl; tauto.
Qed.

(** ** The data setters *)

(** X1: Assigning [xdata] stores the value as a matrix when its rank is at most
    2: a scalar becomes 1 x 1, a vector of length [m] a single row 1 x [m]
    on the same buffer, a matrix is stored as it is; a value of rank 3 or
    more fails the assertion.  Assigning [ydata] stores a scalar as a vector
    of length 1, a vector as it is, and fails on rank 2 or more. *)
Theorem data_assignment (self : instance) (d : value) (n : nat) :
  (if Nat.leb (rank d) 2 then
     exists a n',
       setattr self "xdata" d n =
         Returns (dict_set "_xdata" (Array a) self) n' /\
       shape a = shape_2d d /\ data a = elements d /\
       (forall b, d = Array b -> arr_id a = arr_id b /\ n' = n)
   else
     setattr self "xdata" d n =
       Raises (AssertionError "The xdata must be at most a 2D array")) /\
  (if Nat.leb (rank d) 1 then
     exists a n',
       setattr self "ydata" d n =
         Returns (dict_set "_ydata" (Array a) self) n' /\
       shape a = (if Nat.eqb (rank d) 0 then [1] else shape_value d) /\
       data a = elements d /\
       (forall b, d = Array b -> arr_id a = arr_id b /\ n' = n)
   else
     setattr self "ydata" d n =
       Raises (AssertionError "The ydata must be at most a 1D array")).
Proof.
  split.
  - rewrite setattr_xdata_unfold, data_setter_spec.
    destruct d as [s|[i sh dat]].
    + do 2 eexists. split; [reflexivity|]. split; [reflexivity|].
      split; [reflexivity|]. discriminate.
    + destruct sh as [|m [|m' [|m'' sh]]]; cbn; try reflexivity;
        do 2 eexists; (split; [reflexivity|]); (split; [reflexivity|]);
        (split; [reflexivity|]); intros b Hb; injection Hb as <-;
        split; reflexivity.
  - rewrite setattr_ydata_unfold, bound_setter_spec.
    destruct d as [s|[i sh dat]].
    + do 2 eexists. split; [reflexivity|]. split; [reflexivity|].
      split; [reflexivity|]. discriminate.
    + destruct sh as [|m [|m' sh]]; cbn; try reflexivity;
        do 2 eexists; (split; [reflexivity|]); (split; [reflexivity|]);
        (split; [reflexivity|]); intros b Hb; injection Hb as <-;
        split; reflexivity.
Qed.

(** ** Reading a property after assigning it *)

(** X2: Reading [kernel], [kernel_class] or [method] after assigning it gives
    the assigned value.  Reading [bandwidth] after [bandwidth = v] gives [v]
    only when [v] is not callable: a callable is kept where no property
    reads it, and the read gives what [bandwidth] gave before; likewise for
    [covariance].  After a value that is not callable the other of the two
    reads [None]. *)
Theorem read_after_assignment (self : instance) (v : value) (n : nat) :
  (exists self', setattr self "kernel" v n = Returns self' n /\
     getattr self' "kernel" n = Returns v n /\
     getattr self' "kernel_class" n = Returns VNone n) /\
  (exists self', setattr self "kernel_class" v n = Returns self' n /\
     getattr self' "kernel_class" n = Returns v n /\
     getattr self' "kernel" n = Returns VNone n) /\
  (exists self', setattr self "method" v n = Returns self' n /\
     getattr self' "method" n = Returns v n) /\
  (exists self', setattr self "bandwidth" v n = Returns self' n /\
     if callable v then
       getattr self' "bandwidth" n = getattr self "bandwidth" n /\
       getattr self' "covariance" n = getattr self "covariance" n
     else
       getattr self' "bandwidth" n = Returns v n /\
       getattr self' "covariance" n = Returns VNone n) /\
  (exists self', setattr self "covariance" v n = Returns self' n /\
     if callable v then
       getattr self' "covariance" n = getattr self "covariance" n /\
       getattr self' "bandwidth" n = getattr self "bandwidth" n
     else
       getattr self' "covariance" n = Returns v n /\
       getattr self' "bandwidth" n = Returns VNone n).
Proof.
  repeat split.
  - rewrite kernel_setter_spec. eexists; split; [reflexivity|].
    split; cbv [getattr class_lookup class_lookup_in class_dict String.eqb
                Ascii.eqb Bool.eqb kernel_getter kernel_class_getter attr];
      now lookup.
  - rewrite kernel_class_setter_spec. eexists; split; [reflexivity|].
    split; cbv [getattr class_lookup class_lookup_in class_dict String.eqb
                Ascii.eqb Bool.eqb kernel_getter kernel_class_getter attr];
      now lookup.
  - eexists; split; [reflexivity|].
    cbv [getattr class_lookup class_lookup_in class_dict String.eqb
         Ascii.eqb Bool.eqb method_getter attr]. now lookup.
  - rewrite bandwidth_setter_spec. eexists; split; [reflexivity|]. cbv zeta.
    cbv [getattr class_lookup class_lookup_in class_dict String.eqb
         Ascii.eqb Bool.eqb bandwidth_getter covariance_getter attr].
    destruct (callable v); split; now lookup.
  - rewrite covariance_setter_spec. eexists; split; [reflexivity|]. cbv zeta.
    cbv [getattr class_lookup class_lookup_in class_dict String.eqb
         Ascii.eqb Bool.eqb bandwidth_getter covariance_getter attr].
    destruct (callable v); split; now lookup.
Qed.

(** ** What an assignment leaves alone *)

(** X3: An assignment to a property writes no field but its own: the kernel
    properties write [_kernel] and [_kernel_class], [bandwidth] and
    [covariance] write their four fields, each other property its one
    field.  In particular a new [xdata] or [ydata] leaves [_fitted], [_n]
    and [_d] as they were. *)
Theorem assignment_frame (name field : string) (v : value)
    (self self' : instance) (n n' : nat) :
  In name writable_properties ->
  setattr self name v n = Returns self' n' ->
  ~ In field (fields_written name) ->
  dict_get field self' = dict_get field self.
Proof.
  intros Hname Hrun Hfield.
  destruct (setattr_updates name v self self' n n' Hname Hrun)
    as (updates & -> & Hupd).
  apply dict_get_apply_updates_other.
  eapply Forall_impl; [|exact Hupd]. intros [k w] Hk. cbn [fst] in *.
  destruct (String.eqb_spec field k) as [->|]; [contradiction|reflexivity].
Qed.

Lemma assignment_frame_witness :
  In "xdata" writable_properties /\
  ~ In "_fitted" (fields_written "xdata") /\
  exists self',
    setattr Sample.model "xdata" Sample.xs_2x3 Sample.next =
      Returns self' Sample.next /\
    dict_get "_xdata" self' = Some Sample.xs_2x3 /\
    dict_get "_fitted" self' = dict_get "_fitted" Sample.model.
Proof.
  assert (Hname : In "xdata" writable_properties) by (simpl; tauto).
  assert (Hfield : ~ In "_fitted" (fields_written "xdata"))
    by (simpl; intuition discriminate).
  split; [exact Hname|]. split; [exact Hfield|].
  eexists. split; [vm_compute; reflexivity|]. split; [reflexivity|].
  refine (assignment_frame "xdata" "_fitted" Sample.xs_2x3 Sample.model _
            Sample.next Sample.next Hname _ Hfield).
  vm_compute. reflexivity.
Defined.

(** ** The state after construction *)

Lemma fields_written_option (key field : string) :
  In key recognized_options ->
  In field (fields_written key) -> In field option_fields.
Proof.
  intros Hkey. simpl in Hkey.
  destruct Hkey as [<-|[<-|[<-|[<-|[<-|[<-|[<-|[]]]]]]]]; simpl; tauto.
Qed.

Lemma apply_updates_app (u1 u2 : list (string * value)) (self : instance) :
  apply_updates (u1 ++ u2) self = apply_updates u2 (apply_updates u1 self).
Proof. unfold apply_updates. apply fold_left_app. Qed.

(** The keyword loop, on recognized options, is a run of stores to the
    fields of the options. *)
Lemma init_loop_updates (kwords : dict) (kws : list string) :
  forall (self self' : instance) (n n' : nat),
    Forall (fun kw => In kw recognized_options) kws ->
    init_loop kws kwords self n = Returns self' n' ->
    exists updates,
      self' = apply_updates updates self /\
      Forall (fun kv => In (fst kv) option_fields) updates.
Proof.
  induction kws as [|kw kws IH]; intros self self' n n' Hkws Hrun.
  - inversion Hrun. exists []. split; [reflexivity|constructor].
  - inversion Hkws as [|? ? Hkw Hrest]; subst.
    cbn [init_loop] in Hrun.
    destruct (dict_get kw kwords) as [v|]; [|discriminate].
    unfold bind in Hrun.
    destruct (setattr self kw v n) as [self1 n1|e] eqn:Hset; [|discriminate].
    assert (Hw : In kw writable_properties).
    { simpl in Hkw |- *. tauto. }
    destruct (setattr_updates kw v self self1 n n1 Hw Hset) as (u1 & -> & Hu1).
    destruct (IH _ _ _ _ Hrest Hrun) as (u2 & -> & Hu2).
    exists (u1 ++ u2). split; [now rewrite apply_updates_app|].
    apply Forall_app. split; [|exact Hu2].
    eapply Forall_impl; [|exact Hu1]. intros kv Hkv.
    eapply fields_written_option; eauto.
Qed.

Lemma construct_returns (normal_kernel default_method : value)
    (xdata ydata : value) (kwords : dict) (model : instance) (n n' : nat) :
  construct normal_kernel default_method xdata ydata kwords n =
    Returns model n' ->
  exists xd yd self1 n1,
    length (shape xd) = Nat.max 2 (rank xdata) /\
    length (shape yd) = Nat.max 1 (rank ydata) /\
    data xd = elements xdata /\ data yd = elements ydata /\
    init_loop (dict_keys kwords) kwords (initial_fields xd yd) n1 =
      Returns self1 n' /\
    init_defaults normal_kernel default_method self1 n' = Returns model n'.
Proof.
  unfold construct.
  destruct (existsb _ (dict_keys kwords)); [discriminate|].
  rewrite init_unfold. unfold bind at 1.
  assert (Hx : exists xd n1, atleast_2d xdata n = Returns xd n1 /\
                 length (shape xd) = Nat.max 2 (rank xdata) /\
                 data xd = elements xdata).
  { destruct xdata as [s|[i sh dat]].
    - do 2 eexists. split; [reflexivity|]. split; reflexivity.
    - destruct sh as [|m [|m' sh]];
        do 2 eexists; (split; [reflexivity|]); split; reflexivity. }
  destruct Hx as (xd & n1 & E1 & Hxs & Hxd). rewrite E1. unfold bind at 1.
  assert (Hy : exists yd n2, atleast_1d ydata n1 = Returns yd n2 /\
                 length (shape yd) = Nat.max 1 (rank ydata) /\
                 data yd = elements ydata).
  { destruct ydata as [s|[i sh dat]].
    - do 2 eexists. split; [reflexivity|]. split; reflexivity.
    - destruct sh as [|m sh];
        do 2 eexists; (split; [reflexivity|]); split; reflexivity. }
  destruct Hy as (yd & n2 & E2 & Hys & Hyd). rewrite E2. unfold bind.
  destruct (init_loop (dict_keys kwords) kwords (initial_fields xd yd) n2)
    as [self1 n3|e] eqn:Hloop; [|discriminate].
  intros Hrun. exists xd, yd, self1, n2.
  assert (n' = n3) as ->.
  { unfold init_defaults, attr in Hrun. unfold bind at 1 in Hrun.
    destruct (dict_get "_kernel" self1) as [k|]; [|discriminate].
    unfold ret at 1 in Hrun. unfold bind at 1 in Hrun.
    destruct (is_none k).
    - rewrite kernel_class_setter_spec in Hrun. unfold bind in Hrun.
      destruct (dict_get "_method" _) as [m|]; [|discriminate].
      unfold ret at 1 in Hrun. destruct (is_none m); now inversion Hrun.
    - unfold ret at 1 in Hrun. unfold bind in Hrun.
      destruct (dict_get "_method" _) as [m|]; [|discriminate].
      unfold ret at 1 in Hrun. destruct (is_none m); now inversion Hrun. }
  repeat split; assumption.
Qed.

(** The defaults of lines 46-50, on an instance that has the two fields. *)
Lemma init_defaults_post (normal_kernel default_method : value)
    (self : instance) (k m : value) (n : nat) :
  dict_get "_kernel" self = Some k ->
  dict_get "_method" self = Some m ->
  at_most_one_kernel self ->
  exists self',
    init_defaults normal_kernel default_method self n = Returns self' n /\
    dict_get "_kernel" self' = Some k /\
    dict_get "_kernel_class" self' =
      Some (if is_none k then normal_kernel else VNone) /\
    dict_get "_method" self' = Some (if is_none m then default_method else m).
Proof.
  intros Hk Hm Hinv. unfold init_defaults, attr, bind at 1. rewrite Hk.
  unfold ret at 1. unfold bind at 1.
  destruct (is_none k) eqn:Ek.
  - apply is_none_true in Ek. subst k.
    rewrite kernel_class_setter_spec. unfold bind.
    rewrite !dict_get_set. cbn [String.eqb Ascii.eqb Bool.eqb]. rewrite Hm.
    unfold ret at 1. destruct (is_none m); eexists; (split; [reflexivity|]);
      lookup; auto.
  - unfold ret at 1. unfold bind. rewrite Hm. unfold ret at 1.
    assert (Hkc : dict_get "_kernel_class" self = Some VNone).
    { destruct Hinv as [Hnone|Hkc]; [|exact Hkc].
      rewrite Hk in Hnone. injection Hnone as ->. discriminate. }
    destruct (is_none m); eexists; (split; [reflexivity|]); lookup; auto.
Qed.

Lemma construct_post (normal_kernel default_method : value)
    (xdata ydata : value) (kwords : dict) (model : instance) (n n' : nat) :
  Forall (fun kw => In kw recognized_options) (dict_keys kwords) ->
  construct normal_kernel default_method xdata ydata kwords n =
    Returns model n' ->
  exists xd yd updates k m,
    length (shape xd) = Nat.max 2 (rank xdata) /\
    length (shape yd) = Nat.max 1 (rank ydata) /\
    data xd = elements xdata /\ data yd = elements ydata /\
    Forall (fun kv => In (fst kv) option_fields) updates /\
    dict_get "_kernel" (apply_updates updates (initial_fields xd yd)) =
      Some k /\
    dict_get "_method" (apply_updates updates (initial_fields xd yd)) =
      Some m /\
    at_most_one_kernel (apply_updates updates (initial_fields xd yd)) /\
    init_defaults normal_kernel default_method
      (apply_updates updates (initial_fields xd yd)) n' = Returns model n'.
Proof.
  intros Hkws Hrun.
  destruct (construct_returns _ _ _ _ _ _ _ _ Hrun)
    as (xd & yd & self1 & n1 & Hxs & Hys & Hxd & Hyd & Hloop & Hdef).
  destruct (init_loop_updates _ _ _ _ _ _ Hkws Hloop) as (u & Hself1 & Hu).
  assert (Hinv : at_most_one_kernel self1).
  { eapply init_loop_at_most_one; [exact Hkws|exact Hloop|].
    left. reflexivity. }
  subst self1.
  destruct (dict_get "_kernel" (apply_updates u (initial_fields xd yd)))
    as [k|] eqn:Hk.
  2:{ exfalso. revert Hk. apply dict_get_apply_updates_present. discriminate. }
  destruct (dict_get "_method" (apply_updates u (initial_fields xd yd)))
    as [m|] eqn:Hm.
  2:{ exfalso. revert Hm. apply dict_get_apply_updates_present. discriminate. }
  exists xd, yd, u, k, m. repeat split; auto.
Qed.

Lemma option_fields_frame (field : string) (updates : list (string * value))
    (self : instance) :
  Forall (fun kv => In (fst kv) option_fields) updates ->
  ~ In field option_fields ->
  dict_get field (apply_updates updates self) = dict_get field self.
Proof.
  intros Hu Hfield. apply dict_get_apply_updates_other.
  eapply Forall_impl; [|exact Hu]. intros [k w] Hk. cbn [fst] in *.
  destruct (String.eqb_spec field k) as [->|]; [contradiction|reflexivity].
Qed.

(** An option other than [kernel] leaves an unset [_kernel] unset. *)
Lemma setattr_keeps_kernel_unset (key : string) (v : value)
    (self self' : instance) (n n' : nat) :
  In key recognized_options -> key <> "kernel" ->
  setattr self key v n = Returns self' n' ->
  dict_get "_kernel" self = Some VNone ->
  dict_get "_kernel" self' = Some VNone.
Proof.
  intros Hkey Hne Hrun Hk.
  destruct (String.eqb_spec key "kernel_class") as [->|Hkc].
  - rewrite kernel_class_setter_spec in Hrun. inversion Hrun. now lookup.
  - assert (Hw : In key writable_properties) by (simpl in Hkey |- *; tauto).
    destruct (setattr_updates key v self self' n n' Hw Hrun)
      as (u & -> & Hu).
    rewrite dict_get_apply_updates_other; [exact Hk|].
    eapply Forall_impl; [|exact Hu]. intros [f w] Hf. cbn [fst] in *.
    simpl in Hkey.
    destruct Hkey as [<-|[<-|[<-|[<-|[<-|[<-|[<-|[]]]]]]]];
      try congruence; simpl in Hf;
      repeat (destruct Hf as [<-|Hf]; [reflexivity|]); contradiction.
Qed.

Lemma init_loop_keeps_kernel_unset (kwords : dict) (kws : list string) :
  forall (self self' : instance) (n n' : nat),
    Forall (fun kw => In kw recognized_options) kws ->
    ~ In "kernel" kws ->
    init_loop kws kwords self n = Returns self' n' ->
    dict_get "_kernel" self = Some VNone ->
    dict_get "_kernel" self' = Some VNone.
Proof.
  induction kws as [|kw kws IH]; intros self self' n n' Hkws Hno Hrun Hk.
  - inversion Hrun. now subst.
  - inversion Hkws as [|? ? Hkw Hrest]; subst.
    cbn [init_loop] in Hrun.
    destruct (dict_get kw kwords) as [v|]; [|discriminate].
    unfold bind in Hrun.
    destruct (setattr self kw v n) as [self1 n1|e] eqn:Hset; [|discriminate].
    eapply IH; [exact Hrest| |exact Hrun|].
    + intros Hin. apply Hno. now right.
    + eapply setattr_keeps_kernel_unset; eauto.
      intros ->. apply Hno. now left.
Qed.

Lemma existsb_eqb_in (m : string) (l : list string) :
  existsb (String.eqb m) l = true <-> In m l.
Proof.
  rewrite existsb_exists. split.
  - intros (x & Hx & Heq). apply String.eqb_eq in Heq. now subst.
  - intros Hin. exists m. split; [exact Hin|apply String.eqb_refl].
Qed.

Lemma init_loop_split (kwords : dict) (l1 l2 : list string) :
  forall (self self' : instance) (n n' : nat),
    init_loop (l1 ++ l2) kwords self n = Returns self' n' ->
    exists self1 n1,
      init_loop l1 kwords self n = Returns self1 n1 /\
      init_loop l2 kwords self1 n1 = Returns self' n'.
Proof.
  induction l1 as [|kw l1 IH]; intros self self' n n' Hrun.
  - exists self, n. split; [reflexivity|exact Hrun].
  - cbn [app init_loop] in Hrun |- *.
    destruct (dict_get kw kwords) as [v|]; [|discriminate].
    unfold bind in Hrun |- *.
    destruct (setattr self kw v n) as [self0 n0|e]; [|discriminate].
    now apply IH.
Qed.

Lemma init_loop_head (kwords : dict) (kw : string) (l : list string)
    (self self' : instance) (n n' : nat) :
  init_loop (kw :: l) kwords self n = Returns self' n' ->
  exists v self1 n1,
    dict_get kw kwords = Some v /\
    setattr self kw v n = Returns self1 n1 /\
    init_loop l kwords self1 n1 = Returns self' n'.
Proof.
  cbn [init_loop]. destruct (dict_get kw kwords) as [v|]; [|discriminate].
  unfold bind. destruct (setattr self kw v n) as [self1 n1|e] eqn:Hset;
    [|discriminate].
  intros Hrun. exists v, self1, n1. auto.
Qed.

(** The keyword loop leaves alone a field that none of its keywords
    writes. *)
Lemma init_loop_frame (f : string) (kwords : dict) (kws : list string) :
  forall (self self' : instance) (n n' : nat),
    Forall (fun kw => In kw recognized_options /\
                      ~ In f (fields_written kw)) kws ->
    init_loop kws kwords self n = Returns self' n' ->
    dict_get f self' = dict_get f self.
Proof.
  induction kws as [|kw kws IH]; intros self self' n n' Hkws Hrun.
  - now inversion Hrun.
  - inversion Hkws as [|? ? [Hkw Hf] Hrest]; subst.
    destruct (init_loop_head _ _ _ _ _ _ _ Hrun)
      as (v & self1 & n1 & _ & Hset & Hrun1).
    rewrite (IH _ _ _ _ Hrest Hrun1).
    assert (Hw : In kw writable_properties) by (simpl in Hkw |- *; tauto).
    destruct (setattr_updates kw v self self1 n n1 Hw Hset) as (u & -> & Hu).
    apply dict_get_apply_updates_other.
    eapply Forall_impl; [|exact Hu]. intros [g w] Hg. cbn [fst] in *.
    destruct (String.eqb_spec f g) as [->|]; [contradiction|reflexivity].
Qed.

Lemma not_writes_method (kw : string) :
  In kw recognized_options -> kw <> "method" ->
  ~ In "_method" (fields_written kw).
Proof.
  intros Hkw Hne. simpl in Hkw.
  destruct Hkw as [<-|[<-|[<-|[<-|[<-|[<-|[<-|[]]]]]]]];
    try congruence; simpl; intuition discriminate.
Qed.

Lemma not_writes_kernel (kw : string) :
  In kw recognized_options -> kw <> "kernel" -> kw <> "kernel_class" ->
  ~ In "_kernel" (fields_written kw) /\
  ~ In "_kernel_class" (fields_written kw).
Proof.
  intros Hkw Hne1 Hne2. simpl in Hkw.
  destruct Hkw as [<-|[<-|[<-|[<-|[<-|[<-|[<-|[]]]]]]]];
    try congruence; simpl; intuition discriminate.
Qed.

Lemma dict_get_some_key (k : string) (v : value) (d : dict) :
  dict_get k d = Some v -> In k (dict_keys d).
Proof.
  induction d as [|[k' v'] d IH]; simpl; [discriminate|].
  destruct (String.eqb_spec k k') as [->|]; [now left|].
  intros Hget. right. now apply IH.
Qed.

(** The instance the keyword loop hands to the defaults. *)
Lemma construct_loop_state (normal_kernel default_method : value)
    (xdata ydata : value) (kwords : dict) (model : instance) (n n' : nat) :
  Forall (fun kw => In kw recognized_options) (dict_keys kwords) ->
  construct normal_kernel default_method xdata ydata kwords n =
    Returns model n' ->
  exists xd yd self1 n1 k m,
    init_loop (dict_keys kwords) kwords (initial_fields xd yd) n1 =
      Returns self1 n' /\
    init_defaults normal_kernel default_method self1 n' = Returns model n' /\
    at_most_one_kernel self1 /\
    dict_get "_kernel" self1 = Some k /\
    dict_get "_method" self1 = Some m /\
    dict_get "_kernel" model = Some k /\
    dict_get "_kernel_class" model =
      Some (if is_none k then normal_kernel else VNone) /\
    dict_get "_method" model = Some (if is_none m then default_method else m).
Proof.
  intros Hkws Hrun.
  destruct (construct_returns _ _ _ _ _ _ _ _ Hrun)
    as (xd & yd & self1 & n1 & _ & _ & _ & _ & Hloop & Hdef).
  destruct (init_loop_updates _ _ _ _ _ _ Hkws Hloop) as (u & Hself1 & Hu).
  assert (Hinv : at_most_one_kernel self1).
  { eapply init_loop_at_most_one; [exact Hkws|exact Hloop|].
    left. reflexivity. }
  destruct (dict_get "_kernel" self1) as [k|] eqn:Hk.
  2:{ exfalso. revert Hk. rewrite Hself1.
      apply dict_get_apply_updates_present. discriminate. }
  destruct (dict_get "_method" self1) as [m|] eqn:Hm.
  2:{ exfalso. revert Hm. rewrite Hself1.
      apply dict_get_apply_updates_present. discriminate. }
  destruct (init_defaults_post normal_kernel default_method self1 k m n'
              Hk Hm Hinv) as (model' & Hdef' & Hk' & Hkc' & Hm').
  rewrite Hdef in Hdef'. injection Hdef' as <-.
  exists xd, yd, self1, n1, k, m. repeat split; auto.
Qed.

(** X4: After a construction with recognized options, each given once:
    with no keyword [kernel], or with a keyword [kernel_class] that comes
    after the keyword [kernel], [_kernel] is [None] and [_kernel_class] is
    [kernels.normal_kernel], whatever was passed as [kernel_class]: that
    keyword is overwritten by the default.  With [kernel=k] and no
    [kernel_class] after it, [_kernel] is [k] and [_kernel_class] is [None]
    (when [k] is [None], the default class).  [_method] is the method
    passed as [method], and [npr_methods.default_method] when none, or
    [None], was passed. *)
Theorem construct_kernel_and_method_defaults
    (normal_kernel default_method : value)
    (xdata ydata : value) (kwords : dict) (model : instance) (n n' : nat) :
  Forall (fun kw => In kw recognized_options) (dict_keys kwords) ->
  NoDup (dict_keys kwords) ->
  construct normal_kernel default_method xdata ydata kwords n =
    Returns model n' ->
  (~ In "kernel" (dict_keys kwords) ->
   dict_get "_kernel" model = Some VNone /\
   dict_get "_kernel_class" model = Some normal_kernel) /\
  (forall l1 l2 k,
     dict_keys kwords = l1 ++ "kernel" :: l2 ->
     dict_get "kernel" kwords = Some k ->
     if existsb (String.eqb "kernel_class") l2 then
       dict_get "_kernel" model = Some VNone /\
       dict_get "_kernel_class" model = Some normal_kernel
     else
       dict_get "_kernel" model = Some k /\
       dict_get "_kernel_class" model =
         Some (if is_none k then normal_kernel else VNone)) /\
  (~ In "method" (dict_keys kwords) ->
   dict_get "_method" model = Some default_method) /\
  (forall m,
     dict_get "method" kwords = Some m ->
     dict_get "_method" model =
       Some (if is_none m then default_method else m)).
Proof.
  intros Hkws Hnd Hrun.
  destruct (construct_loop_state _ _ _ _ _ _ _ _ Hkws Hrun)
    as (xd & yd & self1 & n1 & k1 & m1 & Hloop & Hdef & Hinv & Hk1 & Hm1 &
        Hk & Hkc & Hm).
  assert (Hrec : forall kw, In kw (dict_keys kwords) ->
                            In kw recognized_options).
  { apply Forall_forall. exact Hkws. }
  split; [|split; [|split]].
  - intros Hno.
    assert (Hnone : dict_get "_kernel" self1 = Some VNone).
    { eapply init_loop_keeps_kernel_unset;
        [exact Hkws|exact Hno|exact Hloop|reflexivity]. }
    rewrite Hk1 in Hnone. injection Hnone as ->. now split.
  - intros l1 l2 k Hsplit Hget.
    assert (Hnd2 : ~ In "kernel" l2).
    { rewrite Hsplit in Hnd. apply NoDup_remove_2 in Hnd.
      intros Hin. apply Hnd. apply in_or_app. now right. }
    rewrite Hsplit in Hloop.
    destruct (init_loop_split _ _ _ _ _ _ _ Hloop)
      as (self_a & n_a & _ & Hloop2).
    destruct (init_loop_head _ _ _ _ _ _ _ Hloop2)
      as (v & self_b & n_b & Hv & Hset & Hloop3).
    rewrite Hget in Hv. injection Hv as <-.
    rewrite kernel_setter_spec in Hset. injection Hset as <- <-.
    assert (Hrec2 : forall kw, In kw l2 -> In kw recognized_options).
    { intros kw Hin. apply Hrec. rewrite Hsplit.
      apply in_or_app. right. now right. }
    destruct (existsb (String.eqb "kernel_class") l2) eqn:Hex.
    + apply existsb_eqb_in in Hex.
      destruct (in_split _ _ Hex) as (l3 & l4 & Hl2).
      assert (Hnd4 : ~ In "kernel" l4).
      { intros Hin. apply Hnd2. rewrite Hl2.
        apply in_or_app. right. now right. }
      rewrite Hl2 in Hloop3.
      destruct (init_loop_split _ _ _ _ _ _ _ Hloop3)
        as (self_c & n_c & _ & Hloop4).
      destruct (init_loop_head _ _ _ _ _ _ _ Hloop4)
        as (w & self_d & n_d & _ & Hset4 & Hloop5).
      rewrite kernel_class_setter_spec in Hset4. injection Hset4 as <- <-.
      assert (Hnone : dict_get "_kernel" self1 = Some VNone).
      { eapply init_loop_keeps_kernel_unset;
          [|exact Hnd4|exact Hloop5|now lookup].
        apply Forall_forall. intros kw Hin. apply Hrec2. rewrite Hl2.
        apply in_or_app. right. now right. }
      rewrite Hk1 in Hnone. injection Hnone as ->. now split.
    + assert (Hno : ~ In "kernel_class" l2).
      { intros Hin. apply existsb_eqb_in in Hin. congruence. }
      assert (Hframe : forall f,
                 (f = "_kernel" \/ f = "_kernel_class") ->
                 dict_get f self1 =
                 dict_get f (dict_set "_kernel" k
                               (dict_set "_kernel_class" VNone self_a))).
      { intros f Hf. apply (init_loop_frame f _ _ _ _ _ _) with (2 := Hloop3).
        apply Forall_forall. intros kw Hin. split; [now apply Hrec2|].
        assert (Hne1 : kw <> "kernel") by (intros ->; contradiction).
        assert (Hne2 : kw <> "kernel_class") by (intros ->; contradiction).
        destruct (not_writes_kernel kw (Hrec2 kw Hin) Hne1 Hne2) as [H1 H2].
        destruct Hf as [->| ->]; assumption. }
      assert (Hk2 : dict_get "_kernel" self1 = Some k).
      { rewrite Hframe by now left. now lookup. }
      rewrite Hk1 in Hk2. injection Hk2 as ->. now split.
  - intros Hno.
    assert (Hnone : dict_get "_method" self1 = Some VNone).
    { rewrite (init_loop_frame "_method" _ _ _ _ _ _) with (2 := Hloop);
        [reflexivity|].
      apply Forall_forall. intros kw Hin. split; [now apply Hrec|].
      apply not_writes_method; [now apply Hrec|].
      intros ->. contradiction. }
    rewrite Hm1 in Hnone. injection Hnone as ->. exact Hm.
  - intros m Hget.
    pose proof (dict_get_some_key _ _ _ Hget) as Hin.
    destruct (in_split _ _ Hin) as (l1 & l2 & Hsplit).
    assert (Hnd2 : ~ In "method" l2).
    { rewrite Hsplit in Hnd. apply NoDup_remove_2 in Hnd.
      intros Hin2. apply Hnd. apply in_or_app. now right. }
    rewrite Hsplit in Hloop.
    destruct (init_loop_split _ _ _ _ _ _ _ Hloop)
      as (self_a & n_a & _ & Hloop2).
    destruct (init_loop_head _ _ _ _ _ _ _ Hloop2)
      as (v & self_b & n_b & Hv & Hset & Hloop3).
    rewrite Hget in Hv. injection Hv as <-.
    assert (Hb : self_b = dict_set "_method" m self_a)
      by (now inversion Hset).
    assert (Hm2 : dict_get "_method" self1 = Some m).
    { rewrite (init_loop_frame "_method" _ _ _ _ _ _) with (2 := Hloop3).
      - rewrite Hb. apply dict_get_set_same.
      - apply Forall_forall. intros kw Hin2.
        assert (Hr : In kw recognized_options).
        { apply Hrec. rewrite Hsplit. apply in_or_app. right. now right. }
        split; [exact Hr|]. apply not_writes_method; [exact Hr|].
        intros ->. contradiction. }
    rewrite Hm1 in Hm2. injection Hm2 as ->. exact Hm.
Qed.

Lemma construct_kernel_and_method_defaults_witness :
  Forall (fun kw => In kw recognized_options)
         (dict_keys [("kernel_class", Sample.tricube_class);
                     ("method", Sample.scotts_rule)]) /\
  NoDup (dict_keys [("kernel_class", Sample.tricube_class);
                    ("method", Sample.scotts_rule)]) /\
  ~ In "kernel" (dict_keys [("kernel_class", Sample.tricube_class);
                            ("method", Sample.scotts_rule)]) /\
  exists model n',
    Sample.construct Sample.xs Sample.ys
      [("kernel_class", Sample.tricube_class);
       ("method", Sample.scotts_rule)] Sample.later =
      Returns model n' /\
    dict_get "_kernel" model = Some VNone /\
    dict_get "_kernel_class" model = Some Sample.normal_kernel /\
    Sample.normal_kernel <> Sample.tricube_class /\
    dict_get "_method" model = Some Sample.scotts_rule.
Proof.
  assert (Hkws : Forall (fun kw => In kw recognized_options)
                   (dict_keys [("kernel_class", Sample.tricube_class);
                               ("method", Sample.scotts_rule)]))
    by (repeat constructor; simpl; tauto).
  assert (Hnd : NoDup (dict_keys [("kernel_class", Sample.tricube_class);
                                  ("method", Sample.scotts_rule)]))
    by (repeat constructor; simpl; intuition discriminate).
  assert (Hno : ~ In "kernel"
                  (dict_keys [("kernel_class", Sample.tricube_class);
                              ("method", Sample.scotts_rule)]))
    by (simpl; intuition discriminate).
  split; [exact Hkws|]. split; [exact Hnd|]. split; [exact Hno|].
  do 2 eexists. split; [vm_compute; reflexivity|].
  destruct (construct_kernel_and_method_defaults
              Sample.normal_kernel Sample.default_method
              Sample.xs Sample.ys _ _ Sample.later _ Hkws Hnd
              ltac:(vm_compute; reflexivity))
    as (Hkernel & _ & _ & Hmethod).
  destruct (Hkernel Hno) as [Hk Hkc].
  split; [exact Hk|]. split; [exact Hkc|]. split; [discriminate|].
  exact (Hmethod Sample.scotts_rule eq_refl).
Defined.

(** X5: A model constructed with recognized options is not fitted, whatever the
    options: [_fitted] is [False], [N] and [dim] read [None], and the data
    are the arrays given, [xdata] with rank 2 or more and [ydata] with rank
    1 or more. *)
Theorem construct_is_unfitted
    (normal_kernel default_method : value)
    (xdata ydata : value) (kwords : dict) (model : instance) (n n' : nat) :
  Forall (fun kw => In kw recognized_options) (dict_keys kwords) ->
  construct normal_kernel default_method xdata ydata kwords n =
    Returns model n' ->
  dict_get "_fitted" model = Some (VBool false) /\
  getattr model "N" n' = Returns VNone n' /\
  getattr model "dim" n' = Returns VNone n' /\
  exists xd yd,
    getattr model "xdata" n' = Returns (Array xd) n' /\
    getattr model "ydata" n' = Returns (Array yd) n' /\
    length (shape xd) = Nat.max 2 (rank xdata) /\
    length (shape yd) = Nat.max 1 (rank ydata) /\
    data xd = elements xdata /\ data yd = elements ydata.
Proof.
  intros Hkws Hrun.
  destruct (construct_post _ _ _ _ _ _ _ _ Hkws Hrun)
    as (xd & yd & u & k & m & Hxs & Hys & Hxd & Hyd & Hu & Hk & Hm &
        Hinv & Hdef).
  destruct (init_defaults_returns normal_kernel default_method _ k m n' Hk Hm)
    as (model' & Hdef' & Hkeep).
  rewrite Hdef in Hdef'. injection Hdef' as <-.
  assert (Hget : forall field,
             String.eqb field "_kernel_class" = false ->
             String.eqb field "_method" = false ->
             ~ In field option_fields ->
             dict_get field model = dict_get field (initial_fields xd yd)).
  { intros field H1 H2 H3. rewrite Hkeep by assumption.
    now apply option_fields_frame. }
  assert (Hnot : forall field,
             existsb (String.eqb field) option_fields = false ->
             ~ In field option_fields).
  { intros field Hex Hin.
    assert (existsb (String.eqb field) option_fields = true); [|congruence].
    apply existsb_exists. exists field. split; [exact Hin|].
    apply String.eqb_refl. }
  split; [|split; [|split]].
  - rewrite Hget; [reflexivity|reflexivity|reflexivity|].
    now apply Hnot.
  - cbv [getattr class_lookup class_lookup_in class_dict String.eqb
         Ascii.eqb Bool.eqb N_getter attr].
    rewrite Hget; [reflexivity|reflexivity|reflexivity|]. now apply Hnot.
  - cbv [getattr class_lookup class_lookup_in class_dict String.eqb
         Ascii.eqb Bool.eqb dim_getter attr].
    rewrite Hget; [reflexivity|reflexivity|reflexivity|]. now apply Hnot.
  - exists xd, yd.
    cbv [getattr class_lookup class_lookup_in class_dict String.eqb
         Ascii.eqb Bool.eqb xdata_getter ydata_getter attr].
    rewrite !Hget; try reflexivity; try (now apply Hnot).
    repeat split; assumption.
Qed.

Lemma construct_is_unfitted_witness :
  Forall (fun kw => In kw recognized_options)
         (dict_keys [("bandwidth", VFloat 2%float);
                     ("lower", VFloat 0%float)]) /\
  exists model n',
    Sample.construct Sample.xs Sample.ys
      [("bandwidth", VFloat 2%float); ("lower", VFloat 0%float)]
      Sample.next = Returns model n' /\
    dict_get "_fitted" model = Some (VBool false) /\
    getattr model "N" n' = Returns VNone n' /\
    getattr model "dim" n' = Returns VNone n'.
Proof.
  assert (Hkws : Forall (fun kw => In kw recognized_options)
                   (dict_keys [("bandwidth", VFloat 2%float);
                               ("lower", VFloat 0%float)]))
    by (repeat constructor; simpl; tauto).
  split; [exact Hkws|].
  do 2 eexists. split; [vm_compute; reflexivity|].
  refine ((fun H => conj (proj1 H)
                      (conj (proj1 (proj2 H)) (proj1 (proj2 (proj2 H)))))
            (construct_is_unfitted
               Sample.normal_kernel Sample.default_method
               Sample.xs Sample.ys _ _ Sample.next _ Hkws _)).
  vm_compute. reflexivity.
Defined.

(** X6: Keywords go through the setters: a [lower] or [upper] of rank 2 or more
    makes the construction fail on the assertion of the setter, while one of
    rank at most 1 is stored as a vector. *)
Theorem construct_checks_bounds
    (normal_kernel default_method : value)
    (xdata ydata l : value) (n : nat) :
  (if Nat.leb (rank l) 1 then
     exists model n' a,
       construct normal_kernel default_method xdata ydata [("lower", l)] n =
         Returns model n' /\
       dict_get "_lower" model = Some (Array a) /\
       shape a = (if Nat.eqb (rank l) 0 then [1] else shape_value l) /\
       data a = elements l
   else
     construct normal_kernel default_method xdata ydata [("lower", l)] n =
       Raises (AssertionError "The lower bound must be at most a 1D array")) /\
  (if Nat.leb (rank l) 1 then
     exists model n' a,
       construct normal_kernel default_method xdata ydata [("upper", l)] n =
         Returns model n' /\
       dict_get "_upper" model = Some (Array a) /\
       shape a = (if Nat.eqb (rank l) 0 then [1] else shape_value l) /\
       data a = elements l
   else
     construct normal_kernel default_method xdata ydata [("upper", l)] n =
       Raises (AssertionError "The upper bound must be at most a 1D array")).
Proof.
  assert (Hgen : forall name field msg,
    (forall self k, setattr self name l k =
       (l' <- atleast_1d l ;;
        assert (Nat.eqb (length (shape l')) 1) msg ;;
        store field (Array l') self) k) ->
    existsb (String.eqb name) ["self"; "xdata"; "ydata"] = false ->
    String.eqb "_kernel" field = false ->
    String.eqb "_method" field = false ->
    String.eqb field "_kernel_class" = false ->
    String.eqb field "_method" = false ->
    if Nat.leb (rank l) 1 then
      exists model n' a,
        construct normal_kernel default_method xdata ydata [(name, l)] n =
          Returns model n' /\
        dict_get field model = Some (Array a) /\
        shape a = (if Nat.eqb (rank l) 0 then [1] else shape_value l) /\
        data a = elements l
    else
      construct normal_kernel default_method xdata ydata [(name, l)] n =
        Raises (AssertionError msg)).
  { intros name field msg Hset Hparam Hk Hm Hf1 Hf2.
    assert (Heq : exists xd yd n2,
      construct normal_kernel default_method xdata ydata [(name, l)] n =
      (self <- setattr (initial_fields xd yd) name l ;;
       init_defaults normal_kernel default_method self) n2).
    { unfold construct.
      assert (Hb : existsb
                 (fun kw => existsb (String.eqb kw) ["self"; "xdata"; "ydata"])
                 (dict_keys [(name, l)]) = false).
      { cbn [dict_keys map fst]. unfold existsb at 1. now rewrite Hparam. }
      rewrite Hb, init_unfold.
      destruct (atleast_2d_returns xdata n) as (xd & n1 & E1 & _ & _).
      unfold bind at 1. rewrite E1.
      destruct (atleast_1d_returns ydata n1) as (yd & n2 & E2 & _ & _).
      unfold bind at 1. rewrite E2.
      exists xd, yd, n2. cbn [dict_keys map fst init_loop dict_get].
      rewrite String.eqb_refl. unfold bind, ret.
      destruct (setattr (initial_fields xd yd) name l n2); reflexivity. }
    destruct Heq as (xd & yd & n2 & ->).
    unfold bind. rewrite Hset, bound_setter_spec.
    assert (Hfin : forall a k,
      shape a = (if Nat.eqb (rank l) 0 then [1] else shape_value l) ->
      data a = elements l ->
      exists model n' a',
        init_defaults normal_kernel default_method
          (dict_set field (Array a) (initial_fields xd yd)) k =
          Returns model n' /\
        dict_get field model = Some (Array a') /\
        shape a' = (if Nat.eqb (rank l) 0 then [1] else shape_value l) /\
        data a' = elements l).
    { intros a k Hs Hd.
      destruct (init_defaults_returns normal_kernel default_method
                  (dict_set field (Array a) (initial_fields xd yd))
                  VNone VNone k) as (model & Hrun & Hkeep).
      - rewrite dict_get_set, Hk. reflexivity.
      - rewrite dict_get_set, Hm. reflexivity.
      - exists model, k, a. split; [exact Hrun|].
        rewrite Hkeep by assumption. rewrite dict_get_set_same. auto. }
    destruct l as [s|[i sh dat]].
    - cbn. apply Hfin; reflexivity.
    - destruct sh as [|m [|m' sh]]; cbn.
      + apply Hfin; reflexivity.
      + apply Hfin; reflexivity.
      + reflexivity. }
  split.
  - apply (Hgen "lower" "_lower"); try reflexivity.
  - apply (Hgen "upper" "_upper"); try reflexivity.
Qed.

(** ** Deleting *)

(** X7: Only the two bounds can be deleted: [del model.lower] always returns,
    also on a bound that was never set, after it [lower] reads [None] and
    every other field is as before; likewise for [upper].  Deleting any
    other property of the class raises [AttributeError]. *)
Theorem delete_bounds_only (self : instance) (name field : string) (n : nat) :
  (exists self',
     delattr self "lower" n = Returns self' n /\
     getattr self' "lower" n = Returns VNone n /\
     (String.eqb field "_lower" = false ->
      dict_get field self' = dict_get field self)) /\
  (exists self',
     delattr self "upper" n = Returns self' n /\
     getattr self' "upper" n = Returns VNone n /\
     (String.eqb field "_upper" = false ->
      dict_get field self' = dict_get field self)) /\
  (In name ["kernel"; "kernel_class"; "bandwidth"; "covariance"; "method";
            "xdata"; "ydata"; "N"; "dim"] ->
   delattr self name n = Raises (AttributeError "can't delete attribute")).
Proof.
  split; [|split].
  - eexists. split; [reflexivity|]. split.
    + cbv [getattr class_lookup class_lookup_in class_dict String.eqb
           Ascii.eqb Bool.eqb lower_getter attr]. now lookup.
    + intros Hf. now apply dict_get_set_other.
  - eexists. split; [reflexivity|]. split.
    + cbv [getattr class_lookup class_lookup_in class_dict String.eqb
           Ascii.eqb Bool.eqb upper_getter attr]. now lookup.
    + intros Hf. now apply dict_get_set_other.
  - intros Hname. simpl in Hname.
    destruct Hname as [<-|[<-|[<-|[<-|[<-|[<-|[<-|[<-|[<-|[]]]]]]]]]];
      reflexivity.
Qed.

Lemma delete_bounds_only_witness :
  String.eqb "_upper" "_lower" = false /\
  In "kernel" ["kernel"; "kernel_class"; "bandwidth"; "covariance"; "method";
               "xdata"; "ydata"; "N"; "dim"] /\
  (exists self',
     delattr Sample.model "lower" Sample.next = Returns self' Sample.next /\
     getattr self' "lower" Sample.next = Returns VNone Sample.next /\
     dict_get "_upper" self' = dict_get "_upper" Sample.model) /\
  delattr Sample.model "kernel" Sample.next =
    Raises (AttributeError "can't delete attribute").
Proof.
  assert (Hf : String.eqb "_upper" "_lower" = false) by reflexivity.
  assert (Hin : In "kernel"
                  ["kernel"; "kernel_class"; "bandwidth"; "covariance";
                   "method"; "xdata"; "ydata"; "N"; "dim"])
    by (simpl; tauto).
  destruct (delete_bounds_only Sample.model "kernel" "_upper" Sample.next)
    as ((self' & Hdel & Hget & Hkeep) & _ & Hother).
  split; [exact Hf|]. split; [exact Hin|]. split.
  - exists self'. split; [exact Hdel|]. split; [exact Hget|].
    apply Hkeep. exact Hf.
  - apply Hother. exact Hin.
Defined.

(** ** [fit], continued *)

Lemma eq_index_of_nat (k' k : nat) :
  eq_index k' (VInt (Z.of_nat k)) = Nat.eqb k' k.
Proof.
  simpl. destruct (Nat.eqb_spec k' k) as [->|Hne].
  - apply Z.eqb_refl.
  - apply Z.eqb_neq. lia.
Qed.

Lemma np_ones_of_nat (k n : nat) :
  np_ones (VInt (Z.of_nat k)) n =
  Returns (NdArray n [k] (repeat (SFloat 1%float) k)) (S n).
Proof.
  unfold np_ones, as_index, bind.
  destruct (Z.leb_spec 0 (Z.of_nat k)) as [_|Hneg]; [|lia].
  unfold ret at 1. now rewrite Nat2Z.id.
Qed.

Lemma map_float_mul_ones (x : float) (k : nat) :
  map (float_mul_scalar x) (repeat (SFloat 1%float) k) =
  repeat (SFloat (x * 1)%float) k.
Proof. induction k as [|k IH]; simpl; [reflexivity|now rewrite IH]. Qed.

(** The default of lines 223-226 for one bound. *)
Lemma default_bound_spec (field : string) (x : float) (k : nat)
    (b : value) (self : instance) (n : nat) :
  (if is_none b then
     o <- np_ones (VInt (Z.of_nat k)) ;;
     l <- float_mul_array x o ;;
     store field (Array l) self
   else ret self) n =
  if is_none b then
    Returns
      (dict_set field
         (Array (NdArray (S n) [k] (repeat (SFloat (x * 1)%float) k))) self)
      (S (S n))
  else Returns self n.
Proof.
  destruct (is_none b); [|reflexivity].
  unfold bind at 1. rewrite np_ones_of_nat.
  unfold float_mul_array, bind, fresh, ret, store, ret.
  cbn [shape data]. now rewrite map_float_mul_ones.
Qed.

Section FitFrom.

Variable method_fit : value -> instance -> Py instance.

Local Abbreviation fit := (NonParamRegression.fit method_fit).
Local Abbreviation fit_from := (NonParamRegression.fit_from method_fit).

(** X8: [fit] raises [NameError] for the name [D] on every model, with every
    method and whatever the data: line 221 reads the name before anything
    else happens, so the method is never asked to fit. *)
Theorem fit_raises_on_every_model (self : instance) (n : nat) :
  fit self n = Raises (NameError "D").
Proof. unfold NonParamRegression.fit, bind. reflexivity. Qed.

(** X9: Lines 222-230, reached with [N] bound to the integer [k] and [D] to any
    value: when the first axis of [_ydata] is not [k] the assertion fails;
    when it is, a bound that is set is kept, a bound that is [None] becomes
    a vector of [k] entries, one per sample, all minus infinity for [lower]
    and all plus infinity for [upper]; [_n] and [_d] are [N] and [D]; no
    other field is touched, [_fitted] included; the model so prepared is
    handed to the [fit] of the method, and [_fitted] is set once that
    returns. *)
Theorem fit_from_prepares_model
    (D : value) (k k' : nat) (rest : list nat) (self : instance)
    (yd : ndarray) (lo up meth : value) (n : nat) :
  dict_get "_ydata" self = Some (Array yd) ->
  shape yd = k' :: rest ->
  dict_get "_lower" self = Some lo ->
  dict_get "_upper" self = Some up ->
  dict_get "_method" self = Some meth ->
  if Nat.eqb k' k then
    exists self1 n1,
      fit_from D (VInt (Z.of_nat k)) self n =
        (self2 <- method_fit meth self1 ;;
         store "_fitted" (VBool true) self2) n1 /\
      dict_get "_n" self1 = Some (VInt (Z.of_nat k)) /\
      dict_get "_d" self1 = Some D /\
      (if is_none lo then
         exists a, dict_get "_lower" self1 = Some (Array a) /\
                   shape a = [k] /\
                   data a = repeat (SFloat neg_infinity) k
       else dict_get "_lower" self1 = Some lo) /\
      (if is_none up then
         exists a, dict_get "_upper" self1 = Some (Array a) /\
                   shape a = [k] /\
                   data a = repeat (SFloat infinity) k
       else dict_get "_upper" self1 = Some up) /\
      n1 = n + (if is_none lo then 2 else 0) + (if is_none up then 2 else 0) /\
      (forall f, ~ In f ["_lower"; "_upper"; "_n"; "_d"] ->
                 dict_get f self1 = dict_get f self)
  else
    fit_from D (VInt (Z.of_nat k)) self n =
      Raises (AssertionError "There must be as many points for X and Y").
Proof.
  intros Hyd Hshape Hlo Hup Hmeth.
  destruct (Nat.eqb k' k) eqn:Ek;
    unfold NonParamRegression.fit_from, attr;
    unfold bind at 1; rewrite Hyd; unfold ret at 1; cbv beta iota;
    unfold bind at 1; unfold shape_of, ret at 1; rewrite Hshape;
    cbv beta iota;
    unfold bind at 1; unfold shape_first, ret at 1; cbv beta iota;
    unfold bind at 1; rewrite eq_index_of_nat, Ek; [|reflexivity].
  unfold assert, ret at 1. cbv beta iota.
  unfold bind at 1. rewrite Hlo. unfold ret at 1. cbv beta iota.
  unfold bind at 1. rewrite default_bound_spec.
  destruct (is_none lo) eqn:Elo; cbv beta iota;
    (unfold bind at 1; rewrite ?dict_get_set;
     cbn [String.eqb Ascii.eqb Bool.eqb]; rewrite Hup; unfold ret at 1;
     cbv beta iota;
     unfold bind at 1; rewrite default_bound_spec;
     destruct (is_none up) eqn:Eup; cbv beta iota;
     (unfold bind at 1, store at 1, ret at 1; cbv beta iota;
      unfold bind at 1, store at 1, ret at 1; cbv beta iota;
      unfold bind at 1; lookup; rewrite Hmeth; unfold ret at 1;
      cbv beta iota;
      do 2 eexists; split; [reflexivity|];
      split; [now lookup|]; split; [now lookup|]; split;
      [ lookup;
        first [ exact Hlo
              | eexists; split; [reflexivity|split; reflexivity] ]
      | split;
        [ lookup;
          first [ exact Hup
                | eexists; split; [reflexivity|split; reflexivity] ]
        | split;
          [ lia
          | intros f Hf;
            repeat (rewrite dict_get_set;
                    match goal with
                    | |- context [String.eqb f ?g] =>
                        destruct (String.eqb_spec f g) as [->|_];
                        [exfalso; apply Hf; simpl; tauto|]
                    end);
            reflexivity ] ] ])).
Qed.

End FitFrom.

Lemma fit_from_prepares_model_witness :
  exists yd lo up meth,
    dict_get "_ydata" Sample.model = Some (Array yd) /\
    shape yd = [3] /\
    dict_get "_lower" Sample.model = Some lo /\
    dict_get "_upper" Sample.model = Some up /\
    dict_get "_method" Sample.model = Some meth /\
    exists self1 n1 a,
      NonParamRegression.fit_from Sample.method_fit (VInt 1) (VInt 3)
        Sample.model Sample.next =
        (self2 <- Sample.method_fit meth self1 ;;
         store "_fitted" (VBool true) self2) n1 /\
      dict_get "_n" self1 = Some (VInt 3) /\
      dict_get "_lower" self1 = Some (Array a) /\
      shape a = [3] /\
      dict_get "_fitted" self1 = Some (VBool false).
Proof.
  do 4 eexists.
  split; [reflexivity|]. split; [reflexivity|]. split; [reflexivity|].
  split; [reflexivity|]. split; [reflexivity|].
  destruct (fit_from_prepares_model Sample.method_fit (VInt 1) 3 3 []
              Sample.model _ _ _ _ Sample.next
              eq_refl eq_refl eq_refl eq_refl eq_refl)
    as (self1 & n1 & Hrun & Hn & _ & (a & Ha & Hs & _) & _ & _ & Hframe).
  exists self1, n1, a. repeat split; try assumption.
  rewrite Hframe; [reflexivity|]. simpl. intuition discriminate.
Defined.

(** ** [evaluate], continued *)

Section EvaluateMore.

Variable method_evaluate :
  value -> instance -> ndarray -> ndarray -> Py ndarray.

Local Abbreviation evaluate := (NonParamRegression.evaluate method_evaluate).

(** X10: Points of rank 3 or more are refused by the assertion of line 235, on
    every model, with or without an output buffer, before the method or the
    buffer is looked at. *)
Theorem evaluate_refuses_rank3 (self : instance) (points : value)
    (out : option ndarray) (n : nat) :
  3 <= rank points ->
  evaluate self points out n =
  Raises (AssertionError "The input points can be at most a 2D array").
Proof.
  intros Hrank. apply evaluate_rejects_rank3.
  apply Nat.ltb_ge. exact Hrank.
Qed.


End EvaluateMore.

Lemma evaluate_refuses_rank3_witness :
  3 <= rank Sample.xs_rank3 /\
  Sample.evaluate Sample.model Sample.xs_rank3 (Some Sample.buffer)
    Sample.later =
  Raises (AssertionError "The input points can be at most a 2D array").
Proof.
  assert (Hrank : 3 <= rank Sample.xs_rank3) by (vm_compute; lia).
  split; [exact Hrank|].
  exact (evaluate_refuses_rank3 Sample.method_evaluate Sample.model
           Sample.xs_rank3 (Some Sample.buffer) Sample.later Hrank).
Defined.


(** X12: [evaluate] does not look at [_fitted]: on a model that was constructed
    and never fitted, given a buffer of the right size it calls the method
    and returns the buffer, provided the method fills the buffer and keeps
    its shape; no error tells that the model is not fitted. *)
Theorem evaluate_does_not_require_fit
    (normal_kernel default_method : value)
    (method_evaluate : value -> instance -> ndarray -> ndarray -> Py ndarray)
    (xdata ydata points : value) (out : ndarray)
    (model : instance) (n n1 : nat) :
  construct normal_kernel default_method xdata ydata [] n =
    Returns model n1 ->
  rank points < 3 ->
  size out = query_count points ->
  (forall self p o k, exists o' k',
      method_evaluate default_method self p o k = Returns o' k' /\
      shape o' = shape o) ->
  dict_get "_fitted" model = Some (VBool false) /\
  exists res n',
    evaluate method_evaluate model points (Some out) n1 = Returns res n' /\
    shape res = shape_tail1 (shape_value points).
Proof.
  intros Hrun Hrank Hsize Hfill.
  destruct (construct_returns _ _ _ _ _ _ _ _ Hrun)
    as (xd & yd & self1 & n0 & _ & _ & _ & _ & Hloop & Hdef).
  cbn [dict_keys map init_loop] in Hloop. inversion Hloop; subst self1 n0.
  destruct (init_defaults_post normal_kernel default_method
              (initial_fields xd yd) VNone VNone n1)
    as (model' & Hdef' & _ & _ & Hmeth); try reflexivity.
  { left. reflexivity. }
  destruct (init_defaults_returns normal_kernel default_method
              (initial_fields xd yd) VNone VNone n1)
    as (model'' & Hdef'' & Hkeep); try reflexivity.
  rewrite Hdef in Hdef', Hdef''.
  injection Hdef' as <-. injection Hdef'' as <-.
  split.
  - rewrite Hkeep; reflexivity.
  - cbn [is_none] in Hmeth.
    apply (evaluate_with_buffer method_evaluate model points default_method
             out n1 Hrank Hsize Hmeth).
    intros p o k. apply Hfill.
Qed.

Lemma evaluate_does_not_require_fit_witness :
  Sample.construct Sample.xs Sample.ys [] Sample.later =
    Returns Sample.model Sample.later /\
  rank (VFloat 3%float) < 3 /\
  size Sample.cell = query_count (VFloat 3%float) /\
  dict_get "_fitted" Sample.model = Some (VBool false) /\
  exists res n',
    Sample.evaluate Sample.model (VFloat 3%float)
      (Some Sample.cell) Sample.later =
      Returns res n' /\
    shape res = [].
Proof.
  assert (Hrun : Sample.construct Sample.xs Sample.ys [] Sample.later =
                 Returns Sample.model Sample.later)
    by (vm_compute; reflexivity).
  assert (Hrank : rank (VFloat 3%float) < 3) by (vm_compute; lia).
  assert (Hsize : size Sample.cell =
                  query_count (VFloat 3%float)) by reflexivity.
  split; [exact Hrun|]. split; [exact Hrank|]. split; [exact Hsize|].
  apply (evaluate_does_not_require_fit
           Sample.normal_kernel Sample.default_method Sample.method_evaluate
           Sample.xs Sample.ys (VFloat 3%float)
           Sample.cell
           Sample.model Sample.later Sample.later Hrun Hrank Hsize).
  intros self p o k. exists o, k. split; reflexivity.
Defined.

(** ** [copy], continued *)

Lemma dict_keys_set_new (k : string) (v : value) (d : dict) :
  ~ In k (dict_keys d) -> dict_keys (dict_set k v d) = dict_keys d ++ [k].
Proof.
  induction d as [|[k' v'] d IH]; intros Hnew; [reflexivity|].
  simpl in *. destruct (String.eqb_spec k k') as [->|Hne].
  - exfalso. apply Hnew. now left.
  - simpl. f_equal. apply IH. intros Hin. apply Hnew. now right.
Qed.

Lemma NoDup_filter_keys (f : string -> bool) (l : list string) :
  NoDup l -> NoDup (filter f l).
Proof.
  induction 1 as [|x l Hx Hnd IH]; simpl; [constructor|].
  destruct (f x); [|exact IH]. constructor; [|exact IH].
  intros Hin. apply filter_In in Hin. tauto.
Qed.

Lemma filter_private_idem (l : list string) :
  filter is_private_member (filter is_private_member l) =
  filter is_private_member l.
Proof.
  induction l as [|x l IH]; simpl; [reflexivity|].
  destruct (is_private_member x) eqn:Hx; simpl; rewrite ?Hx, IH; reflexivity.
Qed.



Section CopyMore.

Variable object_copy : pyobject -> Py value.

Local Abbreviation copy_loop := (NonParamRegression.copy_loop object_copy).
Local Abbreviation copy := (NonParamRegression.copy object_copy).

(** The loop of [copy] adds the private members in the order it visits
    them. *)
Lemma copy_loop_keys (self : instance) (members : list string) :
  forall (res res' : instance) (n n' : nat),
    NoDup members ->
    (forall m, In m members -> ~ In m (dict_keys res)) ->
    copy_loop members self res n = Returns res' n' ->
    dict_keys res' = dict_keys res ++ filter is_private_member members.
Proof.
  induction members as [|m0 rest IH]; intros res res' n n' Hnd Hnew Hrun.
  - inversion Hrun. cbn [filter]. now rewrite app_nil_r.
  - inversion Hnd as [|? ? Hm0 Hrest]; subst.
    cbn [NonParamRegression.copy_loop filter] in Hrun |- *.
    destruct (is_private_member m0) eqn:Hp.
    + unfold bind at 1 in Hrun.
      destruct (getattr self m0 n) as [obj n0|e]; [|discriminate].
      unfold bind at 1 in Hrun.
      destruct (try_except_AttributeError _ _ n0) as [res1 n1|e] eqn:Hstep;
        [|discriminate].
      destruct (copy_step_returns object_copy _ _ _ _ _ _ Hp Hstep)
        as (c & -> & _).
      apply IH in Hrun; [|exact Hrest|].
      * rewrite Hrun, dict_keys_set_new by (apply Hnew; now left).
        now rewrite <- app_assoc.
      * intros m Hm. rewrite dict_keys_set_new by (apply Hnew; now left).
        intros Hin. apply in_app_or in Hin. destruct Hin as [Hin|[->|[]]].
        -- apply (Hnew m); [now right|exact Hin].
        -- contradiction.
    + apply IH in Hrun; [exact Hrun|exact Hrest|].
      intros m Hm. apply Hnew. now right.
Qed.

(** X13: When [copy] returns, the copy holds the private members in the
    order the original holds them; and when a copy of the copy returns, it
    has these same names again: nothing more is lost. *)
Theorem copy_keeps_order (self res : instance) (n n1 : nat) :
  NoDup (dict_keys self) ->
  copy self n = Returns res n1 ->
  dict_keys res = filter is_private_member (dict_keys self) /\
  NoDup (dict_keys res) /\
  forall res2 k n2,
    copy res k = Returns res2 n2 -> dict_keys res2 = dict_keys res.
Proof.
  intros Hnd Hrun.
  assert (Hkeys : dict_keys res = filter is_private_member (dict_keys self)).
  { apply (copy_loop_keys self (dict_keys self) [] res n n1 Hnd); auto. }
  assert (Hnd' : NoDup (dict_keys res)).
  { rewrite Hkeys. now apply NoDup_filter_keys. }
  split; [exact Hkeys|]. split; [exact Hnd'|].
  intros res2 k n2 Hrun2.
  rewrite (copy_loop_keys res (dict_keys res) [] res2 k n2 Hnd'); auto.
  cbn [dict_keys map app]. rewrite Hkeys. apply filter_private_idem.
Qed.


End CopyMore.

Lemma copy_keeps_order_witness :
  NoDup (dict_keys (("verbose", VBool true) :: Sample.model)) /\
  exists res n1,
    Sample.copy (("verbose", VBool true) :: Sample.model) Sample.next =
      Returns res n1 /\
    dict_keys res = dict_keys Sample.model /\
    forall res2 k n2,
      Sample.copy res k = Returns res2 n2 -> dict_keys res2 = dict_keys res.
Proof.
  assert (Hnd : NoDup (dict_keys (("verbose", VBool true) :: Sample.model))).
  { vm_compute.
    repeat (constructor; [simpl; intuition discriminate|]). constructor. }
  split; [exact Hnd|].
  do 2 eexists. split; [vm_compute; reflexivity|].
  refine ((fun H => conj (proj1 H) (proj2 (proj2 H)))
            (copy_keeps_order Sample.object_copy
               (("verbose", VBool true) :: Sample.model) _
               Sample.next _ Hnd _)).
  vm_compute. reflexivity.
Defined.

